(** * data_to_web: the tabular rendering pipeline

    A shallow embedding of [data_to_web/table_field_array.py],
    [data_to_web/templates.py] (the table template) and the parts of
    [data_to_web/composite_webpage.py] that validate element names and
    render a data frame under temporarily changed display options.

    Python values are modelled by a small universe [pyval]; raising an
    exception is modelled by the [Raise] constructor of [result]; the
    attributes of a [TableFieldArray] instance are the fields of a
    record that every operation threads explicitly. *)

From Stdlib Require Import ZArith List String Ascii Bool Lia.
From Stdlib Require Import Floats.SpecFloat.
From Stdlib Require Import Sorting.Permutation Sorting.Sorted.
Import ListNotations.
Open Scope string_scope.
Open Scope Z_scope.

(** ** Exceptions and fallible computations *)

Inductive exn : Type :=
| TypeError
| ValueError
| KeyError
| AttributeError
| OverflowError
| UndefinedError            (* jinja2.exceptions.UndefinedError *)
| UserError (tag : string). (* anything a user-supplied callable raises *)

Inductive result (A : Type) : Type :=
| Ok (a : A)
| Raise (e : exn).
Arguments Ok {A} a.
Arguments Raise {A} e.

Definition bind {A B} (r : result A) (k : A -> result B) : result B :=
  match r with
  | Ok a => k a
  | Raise e => Raise e
  end.

Notation "x <- c ;; k" := (bind c (fun x => k))
  (at level 61, c at next level, right associativity).

Fixpoint mapM {A B} (f : A -> result B) (xs : list A) : result (list B) :=
  match xs with
  | [] => Ok []
  | x :: xs' => y <- f x ;; ys <- mapM f xs' ;; Ok (y :: ys)
  end.

Definition is_ok {A} (r : result A) : bool :=
  match r with Ok _ => true | Raise _ => false end.

(** ** Characters and decimal numerals *)

Definition dq : string := String (ascii_of_nat 34) EmptyString.
Definition nl : string := String (ascii_of_nat 10) EmptyString.

Definition digit_char (d : Z) : ascii := ascii_of_nat (48 + Z.to_nat d).

(** The [k] least significant decimal digits of [n], most significant
    first. *)
Fixpoint low_digits (k : nat) (n : Z) : string :=
  match k with
  | O => EmptyString
  | S k' => low_digits k' (n / 10) ++ String (digit_char (n mod 10)) EmptyString
  end.

(** The decimal numeral of [n >= 0], without leading zeros.  The fuel
    bounds the number of digits; one more than the binary logarithm of
    [n] is always enough. *)
Fixpoint numeral (fuel : nat) (n : Z) : string :=
  match fuel with
  | O => EmptyString
  | S fuel' =>
      if n <? 10 then String (digit_char n) EmptyString
      else numeral fuel' (n / 10) ++ String (digit_char (n mod 10)) EmptyString
  end.

Definition str_of_nonneg (n : Z) : string :=
  numeral (S (Z.to_nat (Z.log2 n))) n.

(** The number a string of decimal digits denotes. *)
Definition digit_value (c : ascii) : Z := Z.of_nat (nat_of_ascii c) - 48.

Definition is_digit (c : ascii) : bool :=
  (0 <=? digit_value c) && (digit_value c <=? 9).

Fixpoint digits_value_from (acc : Z) (s : string) : Z :=
  match s with
  | EmptyString => acc
  | String c s' => digits_value_from (10 * acc + digit_value c) s'
  end.

Definition digits_value (s : string) : Z := digits_value_from 0 s.

Fixpoint all_digits (s : string) : bool :=
  match s with
  | EmptyString => true
  | String c s' => is_digit c && all_digits s'
  end.

Fixpoint contains_char (c : ascii) (s : string) : bool :=
  match s with
  | EmptyString => false
  | String c' s' => Ascii.eqb c c' || contains_char c s'
  end.

(** [str(n)] and ['%i' % n] for a Python integer. *)
Definition str_of_int (n : Z) : string :=
  if n <? 0 then "-" ++ str_of_nonneg (- n) else str_of_nonneg n.

(** ** Floats: IEEE 754 binary64 *)

Module Float64.

Definition prec : Z := 53.
Definition emax : Z := 1024.

Definition t : Type := spec_float.

Definition of_int (n : Z) : t := binary_normalize prec emax n 0 false.
Definition mul (x y : t) : t := SFmul prec emax x y.

(** [m * 2^e] for integers [m] and [e]. *)
Definition ldexp (m e : Z) : t := binary_normalize prec emax m e false.

Definition hundred : t := of_int 100.
Definition half : t := ldexp 1 (-1).
Definition inf : t := S754_infinity false.

Definition is_finite (x : t) : bool :=
  match x with
  | S754_zero _ | S754_finite _ _ _ => true
  | S754_infinity _ | S754_nan => false
  end.

(** Quotient of [n] by [d > 0], rounded to nearest, ties to even. *)
Definition div_half_even (n d : Z) : Z :=
  let q := n / d in
  let r := n mod d in
  match 2 * r ?= d with
  | Lt => q
  | Gt => q + 1
  | Eq => if Z.even q then q else q + 1
  end.

(** The magnitude [m * 2^e] scaled by [10^p] and rounded to an
    integer, as the correctly rounded ['%.pf'] conversion does. *)
Definition scaled (p : nat) (m : positive) (e : Z) : Z :=
  if 0 <=? e then Z.pos m * 2 ^ e * 10 ^ Z.of_nat p
  else div_half_even (Z.pos m * 10 ^ Z.of_nat p) (2 ^ (- e)).

Definition sign_str (s : bool) : string := if s then "-" else "".

(** The decimal point, absent when no decimals are asked for. *)
Definition point (p : nat) : string :=
  match p with O => "" | S _ => "." end.

Definition fraction_str (p : nat) (n : Z) : string :=
  match p with
  | O => ""
  | S _ => "." ++ low_digits p n
  end.

Definition fixed_str (p : nat) (n : Z) : string :=
  str_of_nonneg (n / 10 ^ Z.of_nat p) ++ fraction_str p (n mod 10 ^ Z.of_nat p).

(** ['%.pf' % x] *)
Definition format_f (p : nat) (x : t) : string :=
  match x with
  | S754_nan => "nan"
  | S754_infinity s => sign_str s ++ "inf"
  | S754_zero s => sign_str s ++ fixed_str p 0
  | S754_finite s m e => sign_str s ++ fixed_str p (scaled p m e)
  end.

Definition sign_bit (x : t) : bool :=
  match x with
  | S754_zero s | S754_infinity s | S754_finite s _ _ => s
  | S754_nan => false
  end.

(** The magnitude of a finite float as a fraction: numerator and
    denominator. *)
Definition magnitude (x : t) : Z * Z :=
  match x with
  | S754_finite _ m e =>
      if 0 <=? e then (Z.pos m * 2 ^ e, 1) else (Z.pos m, 2 ^ (- e))
  | _ => (0, 1)
  end.

(** [int(x)]: truncation toward zero; infinities and NaN raise. *)
Definition to_int (x : t) : result Z :=
  match x with
  | S754_nan => Raise ValueError
  | S754_infinity _ => Raise OverflowError
  | S754_zero _ => Ok 0
  | S754_finite s m e =>
      let a := if 0 <=? e then Z.pos m * 2 ^ e else Z.pos m / 2 ^ (- e) in
      Ok (if s then - a else a)
  end.

End Float64.

(** ** Python values that occur as cells and formatter arguments *)

Inductive pyval : Type :=
| PNone
| PInt (n : Z)
| PFloat (x : Float64.t)
| PStr (s : string).

Section Builtins.

(** [repr] of a float and the parser behind [float(str)] are the
    interpreter's own; they are taken as given. *)
Variable float_repr : Float64.t -> string.
Variable float_of_str : string -> option Float64.t.

(** [str(v)] *)
Definition py_str (v : pyval) : string :=
  match v with
  | PNone => "None"
  | PInt n => str_of_int n
  | PFloat x => float_repr x
  | PStr s => s
  end.

(** [float(v)] *)
Definition py_float (v : pyval) : result Float64.t :=
  match v with
  | PNone => Raise TypeError
  | PInt n =>
      let x := Float64.of_int n in
      if Float64.is_finite x then Ok x else Raise OverflowError
  | PFloat x => Ok x
  | PStr s =>
      match float_of_str s with
      | Some x => Ok x
      | None => Raise ValueError
      end
  end.

(** *** TableField's static formatters *)

Definition format_int (val : pyval) (none_to_zero : bool) : result pyval :=
  match val with
  | PNone => if none_to_zero then Ok (PInt 0) else Ok (PStr "None")
  | _ =>
      x <- py_float val ;;
      n <- Float64.to_int x ;;
      Ok (PStr (str_of_int n))
  end.

(** ['%%.0%if %%%%' % precision] builds the format ['%.0<p>f %%'],
    which the second [%] applies to [float(val) * 100.].  A negative
    precision puts a ['-'] where the conversion character is expected,
    and the second [%] rejects it. *)
Definition format_percent (val : pyval) (precision : Z) : result pyval :=
  x <- py_float val ;;
  if precision <? 0 then Raise ValueError
  else Ok (PStr (Float64.format_f (Z.to_nat precision)
                   (Float64.mul x Float64.hundred) ++ " %")).

End Builtins.

(** ** The dataset collaborator

    A data frame is a list of column names and a list of rows, each an
    index label with one cell per column.  Only the three operations
    the pipeline uses are modelled: projection on a list of column
    names, iteration over rows as named tuples, renaming of columns. *)

Record DataFrame : Type := {
  df_columns : list string;
  df_rows : list (pyval * list pyval)
}.

(** A named tuple as [itertuples] yields it: [Index], then the columns. *)
Definition Row : Type := list (string * pyval).

Fixpoint assoc {A} (k : string) (d : list (string * A)) : option A :=
  match d with
  | [] => None
  | (k', x) :: d' => if String.eqb k k' then Some x else assoc k d'
  end.

(** [d[k] = x] on a dict kept in insertion order. *)
Fixpoint dict_set {A} (k : string) (x : A) (d : list (string * A))
  : list (string * A) :=
  match d with
  | [] => [(k, x)]
  | (k', y) :: d' =>
      if String.eqb k k' then (k', x) :: d' else (k', y) :: dict_set k x d'
  end.

(** The dict after the assignments [d[k] = x] for the pairs in order. *)
Definition dict_set_all {A} (kvs : list (string * A)) (d : list (string * A))
  : list (string * A) :=
  fold_left (fun d kv => dict_set (fst kv) (snd kv) d) kvs d.

Definition has_column (df : DataFrame) (c : string) : bool :=
  existsb (String.eqb c) (df_columns df).

Definition cell_at (cols : list string) (cells : list pyval) (c : string) : pyval :=
  match assoc c (combine cols cells) with
  | Some x => x
  | None => PNone
  end.

(** [df[cols]]: a missing column raises [KeyError]. *)
Definition df_getitem (df : DataFrame) (cols : list string) : result DataFrame :=
  if forallb (has_column df) cols then
    Ok {| df_columns := cols;
          df_rows := map (fun r => (fst r, map (cell_at (df_columns df) (snd r)) cols))
                         (df_rows df) |}
  else Raise KeyError.

(** [df.itertuples()] *)
Definition itertuples (df : DataFrame) : list Row :=
  map (fun r => ("Index", fst r) :: combine (df_columns df) (snd r)) (df_rows df).

(** [getattr(row, name)] *)
Definition getattr (row : Row) (name : string) : result pyval :=
  match assoc name row with
  | Some x => Ok x
  | None => Raise AttributeError
  end.

(** [df.rename(columns=mapping)] *)
Definition df_rename (df : DataFrame) (mapping : list (string * string)) : DataFrame :=
  {| df_columns := map (fun c => match assoc c mapping with
                                 | Some c' => c'
                                 | None => c
                                 end) (df_columns df);
     df_rows := df_rows df |}.

(** ** Headers and cell attributes *)

(** A header is a string or some other object; of such an object the
    pipeline uses its [str()] and its [.string] attribute, if it has one. *)
Inductive header_val : Type :=
| HStr (s : string)
| HObj (repr : string) (string_attr : option string).

Definition header_str (h : header_val) : string :=
  match h with
  | HStr s => s
  | HObj r _ => r
  end.

Definition attr_dict : Type := list (string * string).

(** One entry of [table_dict['tbody']]: [{'v': vals, 'a': attrs}]. *)
Record body_row : Type := {
  row_v : list pyval;
  row_a : list attr_dict
}.

Record table_dict_t : Type := {
  thead_v : list header_val;
  tbody : list body_row
}.

(** ** templates.TPL_TABLE *)

(** What the template's attribute chain can reach: a list or a dict. *)
Inductive pyobj : Type :=
| PyList (xs : list attr_dict)
| PyDict (d : attr_dict).

(** [o.items()] inside a template.  A list has neither an attribute nor
    an item called [items], so the lookup yields jinja's undefined
    value, and calling that raises. *)
Definition jinja_call_items (o : pyobj) : result (list (string * string)) :=
  match o with
  | PyDict d => Ok d
  | PyList _ => Raise UndefinedError
  end.

Section Template.

Variable float_repr : Float64.t -> string.

Definition render_attr (kv : string * string) : string :=
  " " ++ fst kv ++ "=" ++ dq ++ snd kv ++ dq.

(** The body of [{% for val in row.v %}]. *)
Definition render_cell (row : body_row) (val : pyval) : result string :=
  items <- jinja_call_items (PyList (row_a row)) ;;
  Ok (nl ++ "      <td" ++ String.concat "" (map render_attr items) ++ ">"
         ++ py_str float_repr val ++ "</td>" ++ nl ++ "      ").

(** The body of [{% for row in body %}]. *)
Definition render_row (row : body_row) : result string :=
  cells <- mapM (render_cell row) (row_v row) ;;
  Ok (nl ++ "    <tr>" ++ nl ++ "      " ++ String.concat "" cells
         ++ nl ++ "    </tr>" ++ nl ++ "    ").

Definition render_th (h : header_val) : string :=
  "<th>" ++ header_str h ++ "</th>".

Definition render_head (head : list header_val) : string :=
  match head with
  | [] => ""
  | _ => nl ++ "  <thead>" ++ nl ++ "    <tr>" ++ nl ++ "      "
            ++ String.concat "" (map render_th head)
            ++ nl ++ "    </tr>" ++ nl ++ "  </thead>" ++ nl ++ "  "
  end.

Definition render_body (body : list body_row) : result string :=
  match body with
  | [] => Ok ""
  | _ => rows <- mapM render_row body ;;
         Ok (nl ++ "  <tbody>" ++ nl ++ "    " ++ String.concat "" rows
                ++ nl ++ "  </tbody>" ++ nl ++ "  ")
  end.

(** [TPL_TABLE.render(head=head, body=body)] *)
Definition TPL_TABLE_render (head : list header_val) (body : list body_row)
  : result string :=
  b <- render_body body ;;
  Ok ("<table class=" ++ dq ++ "table table-striped table-bordered" ++ dq ++ ">"
        ++ nl ++ "  " ++ render_head head ++ nl ++ "  " ++ b ++ nl ++ "</table>").

End Template.

(** ** TableField *)

Record TableField : Type := {
  name : string;
  is_data : bool;
  visible : bool;
  fcn : option (Row -> result pyval);
  _header : option header_val;
  _attributes_fcn : option (Row -> result attr_dict)
}.

(** [TableField.__init__]: six assignments. *)
Definition TableField_init (name : string) (is_data visible : bool)
    (fcn : option (Row -> result pyval)) (header : option header_val)
    (attributes_fcn : option (Row -> result attr_dict)) : result TableField :=
  Ok {| name := name; is_data := is_data; visible := visible; fcn := fcn;
        _header := header; _attributes_fcn := attributes_fcn |}.

Definition header (f : TableField) : header_val :=
  match _header f with
  | None => HStr (name f)
  | Some h => h
  end.

Definition attributes_fcn (f : TableField) : Row -> result attr_dict :=
  match _attributes_fcn f with
  | None => fun _ => Ok []
  | Some g => g
  end.

(** ** TableFieldArray *)

Record TableFieldArray : Type := {
  _table_fields : list TableField;
  _data : option DataFrame;
  _table_dict : option table_dict_t;
  _table_html : option string;
  _df_pretty : option DataFrame
}.

Definition TableFieldArray_init (table_fields : option (list TableField))
    (data : option DataFrame) : TableFieldArray :=
  {| _table_fields := match table_fields with Some l => l | None => [] end;
     _data := data;
     _table_dict := None;
     _table_html := None;
     _df_pretty := None |}.

Definition _reset_properties (self : TableFieldArray) : TableFieldArray :=
  {| _table_fields := _table_fields self;
     _data := _data self;
     _table_dict := None;
     _table_html := _table_html self;
     _df_pretty := None |}.

Definition table_fields (self : TableFieldArray) : list TableField :=
  _table_fields self.

Definition set_table_fields (val : list TableField) (self : TableFieldArray)
  : TableFieldArray :=
  let self := _reset_properties self in
  {| _table_fields := val;
     _data := _data self;
     _table_dict := _table_dict self;
     _table_html := _table_html self;
     _df_pretty := _df_pretty self |}.

Definition data (self : TableFieldArray) : option DataFrame := _data self.

Definition set_data (val : option DataFrame) (self : TableFieldArray)
  : TableFieldArray :=
  let self := _reset_properties self in
  {| _table_fields := _table_fields self;
     _data := val;
     _table_dict := _table_dict self;
     _table_html := _table_html self;
     _df_pretty := _df_pretty self |}.

Fixpoint find_field (nm : string) (fields : list TableField) : result TableField :=
  match fields with
  | [] => Raise KeyError
  | field :: rest => if String.eqb (name field) nm then Ok field else find_field nm rest
  end.

Definition get_field (self : TableFieldArray) (nm : string) : result TableField :=
  find_field nm (table_fields self).

(** [__getitem__] *)
Definition __getitem__ (self : TableFieldArray) (item : string) : result TableField :=
  get_field self item.

Definition _filter_data (self : TableFieldArray) : list TableField :=
  filter is_data (table_fields self).

Definition _filter_visible (self : TableFieldArray) : list TableField :=
  filter visible (table_fields self).

Definition get_data_fields (self : TableFieldArray) : list string :=
  map name (_filter_data self).

Definition get_data_header (self : TableFieldArray) : list header_val :=
  map header (_filter_data self).

Definition get_output_header (self : TableFieldArray) : list header_val :=
  map header (_filter_visible self).

Definition get_output_tag_attribute_functions (self : TableFieldArray)
  : list (Row -> result attr_dict) :=
  map attributes_fcn (_filter_visible self).

(** [iter_data_rows]: the projection [self.data[data_cols]] is taken
    when the rows are asked for. *)
Definition iter_data_rows (self : TableFieldArray) : result (list Row) :=
  let data_cols := get_data_fields self in
  match data self with
  | None => Ok []
  | Some df => d <- df_getitem df data_cols ;; Ok (itertuples d)
  end.

(** What a generator did before it stopped: the values it yielded, and
    the exception that ended it, if one did. *)
Definition generated (A : Type) : Type := (list A * option exn)%type.

(** A list built from a generator: an exception ends the build. *)
Definition collect {A} (g : generated A) : result (list A) :=
  match snd g with
  | None => Ok (fst g)
  | Some e => Raise e
  end.

Definition formatter : Type :=
  ((Row -> result pyval) * (Row -> result attr_dict))%type.

(** The inner loop of [iter_formatted_rows] on one row. *)
Fixpoint format_row (formatters : list formatter) (row : Row)
  : result (list pyval * list attr_dict) :=
  match formatters with
  | [] => Ok ([], [])
  | (f, attr_function) :: rest =>
      val <- f row ;;
      attr <- attr_function row ;;
      va <- format_row rest row ;;
      Ok (val :: fst va, attr :: snd va)
  end.

(** The outer loop of [iter_formatted_rows]. *)
Fixpoint format_rows (formatters : list formatter) (rows : list Row)
  : generated (list pyval * list attr_dict) :=
  match rows with
  | [] => ([], None)
  | row :: rest =>
      match format_row formatters row with
      | Ok va => let g := format_rows formatters rest in (va :: fst g, snd g)
      | Raise e => ([], Some e)
      end
  end.

Section Projection.

Variable float_repr : Float64.t -> string.

(** The [function] property of a TableField. *)
Definition function (f : TableField) : Row -> result pyval :=
  match fcn f with
  | None => fun x => val <- getattr x (name f) ;; Ok (PStr (py_str float_repr val))
  | Some g => g
  end.

Definition get_output_functions (self : TableFieldArray)
  : list (Row -> result pyval) :=
  map function (_filter_visible self).

Definition get_column_formatters (self : TableFieldArray) : list formatter :=
  combine (get_output_functions self) (get_output_tag_attribute_functions self).

Definition iter_formatted_rows (self : TableFieldArray)
  : generated (list pyval * list attr_dict) :=
  let formatters := get_column_formatters self in
  match iter_data_rows self with
  | Ok rows => format_rows formatters rows
  | Raise e => ([], Some e)
  end.

(** The dict literal of [table_dict], built from the current inputs. *)
Definition build_table_dict (self : TableFieldArray) : result table_dict_t :=
  let head := get_output_header self in
  body <- collect (iter_formatted_rows self) ;;
  Ok {| thead_v := head;
        tbody := map (fun va => {| row_v := fst va; row_a := snd va |}) body |}.

(** The [table_dict] property: the value read, or the exception, and
    the instance afterwards. *)
Definition table_dict (self : TableFieldArray)
  : result table_dict_t * TableFieldArray :=
  match _table_dict self with
  | Some d => (Ok d, self)
  | None =>
      match build_table_dict self with
      | Ok d => (Ok d, {| _table_fields := _table_fields self;
                          _data := _data self;
                          _table_dict := Some d;
                          _table_html := _table_html self;
                          _df_pretty := _df_pretty self |})
      | Raise e => (Raise e, self)
      end
  end.

(** The [table_html] property.  [self.table_dict] is read twice, for
    the head and for the body. *)
Definition table_html (self : TableFieldArray)
  : result string * TableFieldArray :=
  match _table_html self with
  | Some h => (Ok h, self)
  | None =>
      match table_dict self with
      | (Raise e, self1) => (Raise e, self1)
      | (Ok d1, self1) =>
          match table_dict self1 with
          | (Raise e, self2) => (Raise e, self2)
          | (Ok d2, self2) =>
              match TPL_TABLE_render float_repr (thead_v d1) (tbody d2) with
              | Raise e => (Raise e, self2)
              | Ok h => (Ok h, {| _table_fields := _table_fields self2;
                                  _data := _data self2;
                                  _table_dict := _table_dict self2;
                                  _table_html := Some h;
                                  _df_pretty := _df_pretty self2 |})
              end
          end
      end
  end.

End Projection.

(** [data_header.string] for a header that is not a [str]. *)
Definition header_column_name (h : header_val) : result string :=
  match h with
  | HStr s => Ok s
  | HObj _ (Some s) => Ok s
  | HObj _ None => Raise AttributeError
  end.

(** The loop of [df_pretty] that fills the [rename] dict. *)
Fixpoint build_rename (pairs : list (header_val * string))
    (rename : list (string * string)) : result (list (string * string)) :=
  match pairs with
  | [] => Ok rename
  | (data_header, data_field) :: rest =>
      h <- header_column_name data_header ;;
      build_rename rest (dict_set data_field h rename)
  end.

Definition build_df_pretty (self : TableFieldArray) : result DataFrame :=
  let data_fields := get_data_fields self in
  let data_headers := get_data_header self in
  rename <- build_rename (combine data_headers data_fields) [] ;;
  match data self with
  | None => Raise TypeError
  | Some df => d <- df_getitem df data_fields ;; Ok (df_rename d rename)
  end.

(** The [df_pretty] property. *)
Definition df_pretty (self : TableFieldArray) : result DataFrame * TableFieldArray :=
  match _df_pretty self with
  | Some d => (Ok d, self)
  | None =>
      match build_df_pretty self with
      | Ok d => (Ok d, {| _table_fields := _table_fields self;
                          _data := _data self;
                          _table_dict := _table_dict self;
                          _table_html := _table_html self;
                          _df_pretty := Some d |})
      | Raise e => (Raise e, self)
      end
  end.

(** The number of descriptors flagged visible, counted one by one. *)
Fixpoint count_visible (fields : list TableField) : nat :=
  match fields with
  | [] => O
  | f :: rest => if visible f then S (count_visible rest) else count_visible rest
  end.

(** ** CompositePage *)

Module CompositePage.

(** The character class [[0-9A-Za-z_]]. *)
Definition name_char (c : ascii) : bool :=
  let n := nat_of_ascii c in
  ((48 <=? n) && (n <=? 57) || (65 <=? n) && (n <=? 90)
   || (97 <=? n) && (n <=? 122) || (n =? 95))%nat.

(** [re.sub(r'[^0-9A-Za-z_]+', '', name)]: every run of characters
    outside the class is replaced by nothing. *)
Fixpoint strip_invalid (s : string) : string :=
  match s with
  | EmptyString => EmptyString
  | String c rest =>
      if name_char c then String c (strip_invalid rest) else strip_invalid rest
  end.

Section PageElement.

(** The plotted object and the row formatter are stored, not used. *)
Variables PlotObject FormatFcn : Type.

Record PageElement : Type := {
  ix : Z;
  title : option string;
  caption : option string;
  plot_object : option PlotObject;
  name : option string;
  _html : option string;
  format_fcn : option FormatFcn
}.

(** [PageElement.__init__] *)
Definition PageElement_init (index : Z) (title caption : option string)
    (plot_object : option PlotObject) (name : option string)
    (format_fcn : option FormatFcn) : result PageElement :=
  let self := {| ix := index; title := title; caption := caption;
                 plot_object := plot_object; name := name; _html := None;
                 format_fcn := format_fcn |} in
  match name with
  | Some nm =>
      if (String.length nm =? String.length (strip_invalid nm))%nat
      then Ok self
      else Raise ValueError
  | None => Ok self
  end.

End PageElement.

(** *** pandas display options *)

(** A value of [display.float_format]: the class's own
    [_non_scientific_float_format], or some other callable. *)
Inductive float_formatter : Type :=
| NonScientific
| Formatter (f : Float64.t -> string).

Record pd_options : Type := {
  max_colwidth : option Z;
  float_format : option float_formatter
}.

Section Rendering.

(** pandas' [DataFrame.to_html] reads the display options; numpy's
    column coercion behind [_convert_int_columns] works on a copy of
    the frame and sees no option; [pd.set_option] checks a column
    width with the validator of the installed pandas and raises
    [ValueError] on a width it rejects. *)
Variable to_html : pd_options -> DataFrame -> result string.
Variable _convert_int_columns : DataFrame -> result DataFrame.
Variable valid_colwidth : option Z -> bool.

(** [pd.set_option('display.max_colwidth', w)] *)
Definition set_max_colwidth (w : option Z) (o : pd_options) : result pd_options :=
  if valid_colwidth w
  then Ok {| max_colwidth := w; float_format := float_format o |}
  else Raise ValueError.

(** [pd.set_option('display.float_format', f)] for [None] or a callable. *)
Definition set_float_format (f : option float_formatter) (o : pd_options)
  : pd_options :=
  {| max_colwidth := max_colwidth o; float_format := f |}.

(** The [try ... finally] of [df_to_html]: the outcome of [to_html],
    or the exception of the [finally] block when that raises, and the
    options afterwards. *)
Definition render_and_restore (df : DataFrame) (old_width : option Z)
    (old_float_format : option float_formatter) (o : pd_options)
  : result string * pd_options :=
  let output := to_html o df in
  match set_max_colwidth old_width o with
  | Raise e => (Raise e, o)
  | Ok o => (output, set_float_format old_float_format o)
  end.

(** [df_to_html]: what the call returns or raises, and the display
    options after it. *)
Definition df_to_html (df : DataFrame) (int_convert non_scientific : bool)
    (o : pd_options) : result string * pd_options :=
  match (if int_convert then _convert_int_columns df else Ok df) with
  | Raise e => (Raise e, o)
  | Ok df =>
      let old_width := max_colwidth o in
      match set_max_colwidth (Some (-1)) o with
      | Raise e => (Raise e, o)
      | Ok o =>
          let old_float_format := float_format o in
          let o := if non_scientific
                   then set_float_format (Some NonScientific) o else o in
          render_and_restore df old_width old_float_format o
      end
  end.

End Rendering.

End CompositePage.

(** ** Sample inputs *)

Module Sample.

(** A stand-in for the interpreter's float parser on inputs that hold
    no numeric string. *)
Definition no_float_strings : string -> option Float64.t := fun _ => None.

Definition plain_field (nm : string) : TableField :=
  {| name := nm; is_data := true; visible := true; fcn := None;
     _header := None; _attributes_fcn := None |}.

Definition field_a : TableField := plain_field "a".
Definition field_b : TableField := plain_field "b".

(** [TableField('x', attributes_fcn=lambda row: {'class': 'c'})] *)
Definition field_x_class : TableField :=
  {| name := "x"; is_data := true; visible := true; fcn := None;
     _header := None;
     _attributes_fcn := Some (fun _ => Ok [("class", "c")]) |}.

(** A hidden data column next to a visible derived one. *)
Definition field_hidden : TableField :=
  {| name := "x"; is_data := true; visible := false; fcn := None;
     _header := None; _attributes_fcn := None |}.

Definition field_derived : TableField :=
  {| name := "twice"; is_data := false; visible := true;
     fcn := Some (fun row => v <- getattr row "x" ;;
                             match v with
                             | PInt n => Ok (PInt (2 * n))
                             | _ => Raise TypeError
                             end);
     _header := Some (HStr "Twice"); _attributes_fcn := None |}.

(** A header object with markup and a [.string], as a parsed tag has. *)
Definition field_tag_header : TableField :=
  {| name := "x"; is_data := true; visible := true; fcn := None;
     _header := Some (HObj "<b>Total</b>" (Some "Total"));
     _attributes_fcn := None |}.

(** The integer [5] as a header: no [.string] attribute. *)
Definition field_int_header : TableField :=
  {| name := "x"; is_data := true; visible := true; fcn := None;
     _header := Some (HObj "5" None); _attributes_fcn := None |}.

(** [pd.DataFrame({'x': [1, 2]})] *)
Definition frame_x : DataFrame :=
  {| df_columns := ["x"];
     df_rows := [(PInt 0, [PInt 1]); (PInt 1, [PInt 2])] |}.

Definition frame_xy : DataFrame :=
  {| df_columns := ["x"; "y"];
     df_rows := [(PInt 0, [PInt 1; PStr "u"]); (PInt 1, [PInt 2; PStr "v"])] |}.

Definition array_a : TableFieldArray :=
  TableFieldArray_init (Some [field_a]) None.

Definition array_x_class : TableFieldArray :=
  TableFieldArray_init (Some [field_x_class]) (Some frame_x).

Definition array_mixed : TableFieldArray :=
  TableFieldArray_init (Some [field_hidden; field_derived]) (Some frame_xy).

Definition array_tag_header : TableFieldArray :=
  TableFieldArray_init (Some [field_tag_header]) (Some frame_xy).

Definition array_int_header : TableFieldArray :=
  TableFieldArray_init (Some [field_int_header]) (Some frame_xy).

Definition options : CompositePage.pd_options :=
  {| CompositePage.max_colwidth := Some 50; CompositePage.float_format := None |}.

(** A renderer that always raises. *)
Definition failing_to_html (o : CompositePage.pd_options) (df : DataFrame)
  : result string := Raise (UserError "to_html").

End Sample.

(** ** The remaining formatters *)

(** The euro sign, U+20AC, in UTF-8. *)
Definition euro_sign : string :=
  String (ascii_of_nat 226) (String (ascii_of_nat 130)
    (String (ascii_of_nat 172) EmptyString)).

(** [bool(v)] *)
Definition py_truth (v : pyval) : bool :=
  match v with
  | PNone => false
  | PInt n => negb (n =? 0)
  | PFloat (S754_zero _) => false
  | PFloat _ => true
  | PStr s => negb (String.eqb s "")
  end.

(** The integer that ['%i' % v] prints. *)
Definition percent_i_operand (v : pyval) : result Z :=
  match v with
  | PInt n => Ok n
  | PFloat x => Float64.to_int x
  | PNone | PStr _ => Raise TypeError
  end.

(** [abs(x) >= n] for a float [x] and an integer [n]: an exact
    comparison; false for NaN. *)
Definition float_abs_ge_int (x : Float64.t) (n : Z) : bool :=
  match x with
  | S754_nan => false
  | S754_infinity _ => true
  | _ => n * snd (Float64.magnitude x) <=? fst (Float64.magnitude x)
  end.

Section Formatters.

Variable float_of_str : string -> option Float64.t.

(** [TableField.format_euro] *)
Definition format_euro (val : pyval) : result pyval :=
  x <- py_float float_of_str val ;;
  Ok (PStr (Float64.format_f 2 x ++ " " ++ euro_sign)).

(** [cls.format_int(val, **kwargs)]: binding a keyword other than
    [none_to_zero] raises [TypeError]. *)
Definition call_format_int (val : pyval) (kwargs : list (string * pyval))
  : result pyval :=
  if forallb (fun kv => String.eqb (fst kv) "none_to_zero") kwargs then
    format_int float_of_str val
      match assoc "none_to_zero" kwargs with
      | Some v => py_truth v
      | None => true
      end
  else Raise TypeError.

(** [cls.format_percent(val, **kwargs)]: the precision goes through
    ['%i'] before [float(val)] is evaluated. *)
Definition call_format_percent (val : pyval) (kwargs : list (string * pyval))
  : result pyval :=
  if forallb (fun kv => String.eqb (fst kv) "precision") kwargs then
    match assoc "precision" kwargs with
    | Some p => n <- percent_i_operand p ;; format_percent float_of_str val n
    | None => format_percent float_of_str val 1
    end
  else Raise TypeError.

(** [TableField.format_factory]: [None] for any other format type. *)
Definition format_factory (format_type field_name : string)
    (kwargs : list (string * pyval)) : option (Row -> result pyval) :=
  if String.eqb format_type "int" then
    Some (fun x => v <- getattr x field_name ;; call_format_int v kwargs)
  else if String.eqb format_type "euro" then
    Some (fun x => v <- getattr x field_name ;; format_euro v)
  else if String.eqb format_type "percent" then
    Some (fun x => v <- getattr x field_name ;; call_format_percent v kwargs)
  else None.

End Formatters.

Section NonScientific.

(** ['%.0pe' % x] and the comparison [abs(x) >= 10 ** -3], whose right
    side is the float the platform's [pow] returns, are the
    interpreter's. *)
Variable format_e : nat -> Float64.t -> string.
Variable abs_ge_milli : Float64.t -> bool.

(** [CompositePage._non_scientific_float_format] *)
Definition _non_scientific_float_format (number : Float64.t) : string :=
  match number with
  | S754_zero _ => "0.0"
  | _ =>
      if float_abs_ge_int number (10 ^ 10) then format_e 5 number
      else if float_abs_ge_int number (10 ^ 6) then Float64.format_f 2 number
      else if float_abs_ge_int number 1 then Float64.format_f 4 number
      else if abs_ge_milli number then Float64.format_f 6 number
      else format_e 5 number
  end.

End NonScientific.

(** One reassignment of [data] or of [table_fields]. *)
Inductive reassignment : Type :=
| AssignData (val : option DataFrame)
| AssignTableFields (val : list TableField).

Definition reassign (r : reassignment) (self : TableFieldArray) : TableFieldArray :=
  match r with
  | AssignData val => set_data val self
  | AssignTableFields val => set_table_fields val self
  end.

(** ** Publishing a page *)

Module Output.

(** The character class [[0-9A-Za-z\-_.]]. *)
Definition file_char (c : ascii) : bool :=
  let n := nat_of_ascii c in
  (CompositePage.name_char c || (n =? 45) || (n =? 46))%nat.

(** [name.replace(' ', '_')] *)
Fixpoint replace_spaces (s : string) : string :=
  match s with
  | EmptyString => EmptyString
  | String c rest =>
      String (if Ascii.eqb c " " then "_"%char else c) (replace_spaces rest)
  end.

(** [re.sub(r'[^0-9A-Za-z\-_.]+', '', name)] *)
Fixpoint strip_non_file (s : string) : string :=
  match s with
  | EmptyString => EmptyString
  | String c rest =>
      if file_char c then String c (strip_non_file rest) else strip_non_file rest
  end.

(** [CompositePage.extract_name] *)
Definition extract_name (name : string) : string :=
  let name := replace_spaces name in
  strip_non_file name.

(** How [publish] ends when it does not return a path. *)
Inductive publish_error : Type :=
| NoName                     (* [AttributeError]: neither a name nor a title *)
| InvalidBasename            (* [ValueError]: nothing left of the name *)
| FileExists                 (* [OSError]: the file is there, no overwrite *)
| RenderingFailed (e : exn). (* [self.html] raised *)

(** The files that matter to [publish], path and content, and the lines
    printed so far. *)
Record world : Type := {
  files : list (string * string);
  printed : list string
}.

Definition path_exists (w : world) (path : string) : bool :=
  match assoc path (files w) with
  | Some _ => true
  | None => false
  end.

(** Opening a file for writing and writing [content] to it; opening
    alone leaves it empty. *)
Definition write_file (path content : string) (w : world) : world :=
  {| files := dict_set path content (files w); printed := printed w |}.

Definition print (line : string) (w : world) : world :=
  {| files := files w; printed := printed w ++ [line] |}.

Section Publish.

(** [os.path.abspath] under the current directory. *)
Variable abspath : string -> string.

(** [CompositePage.publish], for a page with the given title whose
    [html] property evaluates to [html].  The file is opened, hence
    created or emptied, before [self.html] is evaluated. *)
Definition publish (title : option string) (html : result string)
    (name : option string) (overwrite : bool) (w : world)
  : (publish_error + string) * world :=
  let name := match name with
              | Some "" | None => title
              | Some nm => Some nm
              end in
  match name with
  | None => (inl NoName, w)
  | Some nm =>
      let nm := extract_name nm in
      if (String.length nm =? 0)%nat then (inl InvalidBasename, w)
      else
        let filepath := abspath (nm ++ ".html") in
        let url := "file:///" ++ filepath in
        if path_exists w filepath && negb overwrite then (inl FileExists, w)
        else
          let w := write_file filepath "" w in
          match html with
          | Raise e => (inl (RenderingFailed e), w)
          | Ok page =>
              let w := write_file filepath page w in
              let w := print ("access output via: " ++ url) w in
              (inr filepath, w)
          end
  end.

End Publish.

End Output.

(** ** The page and its elements *)

Module Page.

Section Page.

(** Figures, axes, the keyword arguments of [savefig] and row formatters
    belong to the plotting libraries and to the caller. *)
Variables Figure Axes Kwargs FormatFcn : Type.

(** What an element keeps as [plot_object]. *)
Inductive plot_obj : Type :=
| PlotFrame (df : DataFrame)
| PlotFigure (fig : Figure).

Definition Element : Type := CompositePage.PageElement plot_obj FormatFcn.

Definition ix (e : Element) : Z := CompositePage.ix _ _ e.

(** The setter of [PageElement.html]. *)
Definition set_html (val : option string) (e : Element) : Element :=
  {| CompositePage.ix := CompositePage.ix _ _ e;
     CompositePage.title := CompositePage.title _ _ e;
     CompositePage.caption := CompositePage.caption _ _ e;
     CompositePage.plot_object := CompositePage.plot_object _ _ e;
     CompositePage.name := CompositePage.name _ _ e;
     CompositePage._html := val;
     CompositePage.format_fcn := CompositePage.format_fcn _ _ e |}.

Definition html_raw (e : Element) : option string := CompositePage._html _ _ e.

Record CompositePage : Type := {
  title : option string;
  caption : option string;
  _tables : list Element;
  _bokeh_figs : list Element;
  _plt_figs : list Element;
  _index : Z;
  _bokeh_resources_inline : bool;
  _scrollable_tables : bool
}.

(** [CompositePage.__init__] *)
Definition CompositePage_init (title caption : option string)
    (bokeh_resources_inline : bool) : CompositePage :=
  {| title := title; caption := caption; _tables := []; _bokeh_figs := [];
     _plt_figs := []; _index := 0;
     _bokeh_resources_inline := bokeh_resources_inline;
     _scrollable_tables := false |}.

(** The [index] property: reading it advances the counter. *)
Definition index (self : CompositePage) : Z * CompositePage :=
  let i := _index self + 1 in
  (i, {| title := title self; caption := caption self;
         _tables := _tables self; _bokeh_figs := _bokeh_figs self;
         _plt_figs := _plt_figs self; _index := i;
         _bokeh_resources_inline := _bokeh_resources_inline self;
         _scrollable_tables := _scrollable_tables self |}).

Definition append_table (e : Element) (self : CompositePage) : CompositePage :=
  {| title := title self; caption := caption self;
     _tables := _tables self ++ [e]; _bokeh_figs := _bokeh_figs self;
     _plt_figs := _plt_figs self; _index := _index self;
     _bokeh_resources_inline := _bokeh_resources_inline self;
     _scrollable_tables := _scrollable_tables self |}.

Definition append_bokeh_fig (e : Element) (self : CompositePage) : CompositePage :=
  {| title := title self; caption := caption self;
     _tables := _tables self; _bokeh_figs := _bokeh_figs self ++ [e];
     _plt_figs := _plt_figs self; _index := _index self;
     _bokeh_resources_inline := _bokeh_resources_inline self;
     _scrollable_tables := _scrollable_tables self |}.

Definition append_plt_fig (e : Element) (self : CompositePage) : CompositePage :=
  {| title := title self; caption := caption self;
     _tables := _tables self; _bokeh_figs := _bokeh_figs self;
     _plt_figs := _plt_figs self ++ [e]; _index := _index self;
     _bokeh_resources_inline := _bokeh_resources_inline self;
     _scrollable_tables := _scrollable_tables self |}.

(** [self.PageElement(index, title=..., caption=..., plot_object=...,
    format_fcn=...)]: the methods of the page never pass a name. *)
Definition PageElement (index : Z) (title caption : option string)
    (plot_object : option plot_obj) (format_fcn : option FormatFcn)
  : result Element :=
  CompositePage.PageElement_init plot_obj FormatFcn
    index title caption plot_object None format_fcn.

(** The collaborators of the [add_*] methods. *)
Variable to_html : CompositePage.pd_options -> DataFrame -> result string.
Variable _convert_int_columns : DataFrame -> result DataFrame.
Variable valid_colwidth : option Z -> bool.
Variable has_number : Axes -> bool.
Variable get_figure : Axes -> result Axes.
Variable plt_to_html : option Axes -> Kwargs -> result string.

(** [add_table]: the outcome, the page and the display options after
    the call.  The index is read before the frame is rendered. *)
Definition add_table (df : DataFrame) (title caption : option string)
    (int_convert non_scientific : bool) (html : option string)
    (format_fcn : option FormatFcn)
    (self : CompositePage) (o : CompositePage.pd_options)
  : result unit * CompositePage * CompositePage.pd_options :=
  let (i, self) := index self in
  match PageElement i title caption (Some (PlotFrame df)) format_fcn with
  | Raise e => (Raise e, self, o)
  | Ok element_table =>
      match html with
      | None =>
          match CompositePage.df_to_html to_html _convert_int_columns
                  valid_colwidth df int_convert non_scientific o with
          | (Raise e, o) => (Raise e, self, o)
          | (Ok formatted_html, o) =>
              (Ok tt,
               append_table (set_html (Some formatted_html) element_table) self,
               o)
          end
      | Some h =>
          (Ok tt, append_table (set_html (Some h) element_table) self, o)
      end
  end.

(** [add_table_from_fields]: the outcome, the page and the field array,
    whose [df_pretty] is read, after the call. *)
Definition add_table_from_fields (fields : TableFieldArray)
    (title caption : option string) (self : CompositePage)
  : result unit * CompositePage * TableFieldArray :=
  let (i, self) := index self in
  match df_pretty fields with
  | (Raise e, fields) => (Raise e, self, fields)
  | (Ok pretty, fields) =>
      match PageElement i title caption (Some (PlotFrame pretty)) None with
      | Raise e => (Raise e, self, fields)
      | Ok element_table => (Ok tt, append_table element_table self, fields)
      end
  end.

(** [add_bokeh_figure] *)
Definition add_bokeh_figure (fig : Figure) (title caption : option string)
    (self : CompositePage) : result unit * CompositePage :=
  let (i, self) := index self in
  match PageElement i title caption (Some (PlotFigure fig)) None with
  | Raise e => (Raise e, self)
  | Ok element_bokeh => (Ok tt, append_bokeh_fig element_bokeh self)
  end.

(** [add_plt]: axes without a [number] are replaced by their figure
    before the index is read. *)
Definition add_plt (axes : option Axes) (title caption : option string)
    (kwargs : Kwargs) (self : CompositePage) : result unit * CompositePage :=
  let axes' :=
    match axes with
    | Some a => if has_number a then Ok (Some a)
                else (fig <- get_figure a ;; Ok (Some fig))
    | None => Ok None
    end in
  match axes' with
  | Raise e => (Raise e, self)
  | Ok axes =>
      let (i, self) := index self in
      match PageElement i title caption None None with
      | Raise e => (Raise e, self)
      | Ok element_plt =>
          match plt_to_html axes kwargs with
          | Raise e => (Raise e, self)
          | Ok h => (Ok tt, append_plt_fig (set_html (Some h) element_plt) self)
          end
      end
  end.

(** [sorted(..., key=lambda x: x.ix)]: the stable sort by index, as an
    insertion sort that puts an element before the later ones of equal
    index. *)
Fixpoint insert_by_ix (x : Element) (l : list Element) : list Element :=
  match l with
  | [] => [x]
  | y :: l' => if ix x <=? ix y then x :: y :: l' else y :: insert_by_ix x l'
  end.

Definition sorted_by_ix (l : list Element) : list Element :=
  fold_right insert_by_ix [] l.

Definition all_elements (self : CompositePage) : list Element :=
  _tables self ++ _bokeh_figs self ++ _plt_figs self.

(** The [pagecontent] property. *)
Definition pagecontent (self : CompositePage) : list Element :=
  sorted_by_ix (all_elements self).

(** One call of an [add_*] method, with its arguments. *)
Inductive call : Type :=
| AddTable (df : DataFrame) (title caption : option string)
    (int_convert non_scientific : bool) (html : option string)
    (format_fcn : option FormatFcn)
| AddTableFromFields (fields : TableFieldArray) (title caption : option string)
| AddBokehFigure (fig : Figure) (title caption : option string)
| AddPlt (axes : option Axes) (title caption : option string) (kwargs : Kwargs).

(** The outcome of a call and the page after it, under display options
    [o]. *)
Definition perform (c : call) (o : CompositePage.pd_options)
    (self : CompositePage) : result unit * CompositePage :=
  match c with
  | AddTable df t cap ic ns h f =>
      let '(r, self, _) := add_table df t cap ic ns h f self o in (r, self)
  | AddTableFromFields fields t cap =>
      let '(r, self, _) := add_table_from_fields fields t cap self in (r, self)
  | AddBokehFigure fig t cap => add_bokeh_figure fig t cap self
  | AddPlt axes t cap kw => add_plt axes t cap kw self
  end.

(** The display options after a call: only [add_table] touches them. *)
Definition options_after (c : call) (o : CompositePage.pd_options)
    (self : CompositePage) : CompositePage.pd_options :=
  match c with
  | AddTable df t cap ic ns h f => snd (add_table df t cap ic ns h f self o)
  | _ => o
  end.

(** The page and the display options after a sequence of calls, each
    continuing where the previous one left them, whether it raised or
    not. *)
Definition perform_all (calls : list call) (o : CompositePage.pd_options)
    (self : CompositePage) : CompositePage * CompositePage.pd_options :=
  fold_left (fun st c => (snd (perform c (snd st) (fst st)),
                          options_after c (snd st) (fst st)))
            calls (self, o).

End Page.

Arguments PlotFrame {Figure} df.
Arguments PlotFigure {Figure} fig.
Arguments ix {Figure FormatFcn} e.
Arguments set_html {Figure FormatFcn} val e.
Arguments html_raw {Figure FormatFcn} e.
Arguments title {Figure FormatFcn} c.
Arguments caption {Figure FormatFcn} c.
Arguments _tables {Figure FormatFcn} c.
Arguments _bokeh_figs {Figure FormatFcn} c.
Arguments _plt_figs {Figure FormatFcn} c.
Arguments _index {Figure FormatFcn} c.
Arguments CompositePage_init {Figure FormatFcn} title caption bokeh_resources_inline.
Arguments index {Figure FormatFcn} self.
Arguments PageElement {Figure FormatFcn} index title caption plot_object format_fcn.
Arguments add_table {Figure FormatFcn} to_html _convert_int_columns valid_colwidth
  df title caption int_convert non_scientific html format_fcn self o.
Arguments add_table_from_fields {Figure FormatFcn} fields title caption self.
Arguments add_bokeh_figure {Figure FormatFcn} fig title caption self.
Arguments add_plt {Figure Axes Kwargs FormatFcn} has_number get_figure plt_to_html
  axes title caption kwargs self.
Arguments insert_by_ix {Figure FormatFcn} x l.
Arguments sorted_by_ix {Figure FormatFcn} l.
Arguments all_elements {Figure FormatFcn} self.
Arguments pagecontent {Figure FormatFcn} self.
Arguments AddTable {Figure Axes Kwargs FormatFcn} df title caption
  int_convert non_scientific html format_fcn.
Arguments AddTableFromFields {Figure Axes Kwargs FormatFcn} fields title caption.
Arguments AddBokehFigure {Figure Axes Kwargs FormatFcn} fig title caption.
Arguments AddPlt {Figure Axes Kwargs FormatFcn} axes title caption kwargs.
Arguments perform {Figure Axes Kwargs FormatFcn} to_html _convert_int_columns
  valid_colwidth has_number get_figure plt_to_html c o self.
Arguments perform_all {Figure Axes Kwargs FormatFcn} to_html _convert_int_columns
  valid_colwidth has_number get_figure plt_to_html calls o self.

(** The counter is not negative, every element carries a positive
    index that the counter has reached, and no two elements share one. *)
Definition well_indexed {Figure FormatFcn : Type}
    (self : CompositePage Figure FormatFcn) : Prop :=
  0 <= _index self
  /\ Forall (fun e => 0 < ix e <= _index self) (all_elements self)
  /\ NoDup (map ix (all_elements self)).

(** A list in nondecreasing order of index. *)
Definition ordered_by_ix {Figure FormatFcn : Type}
    (l : list (Element Figure FormatFcn)) : Prop :=
  StronglySorted (fun a b => ix a <= ix b) l.

(** [self'] has one element more than [self], with the next index,
    somewhere among the elements of [self]. *)
Definition appended {Figure FormatFcn : Type}
    (self self' : CompositePage Figure FormatFcn) : Prop :=
  exists e l1 l2,
    ix e = _index self + 1
    /\ _index self' = _index self + 1
    /\ all_elements self = (l1 ++ l2)%list
    /\ all_elements self' = (l1 ++ e :: l2)%list.

(** [self'] has the elements of [self]; the counter stayed or advanced
    by one. *)
Definition untouched {Figure FormatFcn : Type}
    (self self' : CompositePage Figure FormatFcn) : Prop :=
  _tables self' = _tables self
  /\ _bokeh_figs self' = _bokeh_figs self
  /\ _plt_figs self' = _plt_figs self
  /\ (_index self' = _index self \/ _index self' = _index self + 1).

End Page.

(** ** The document of the bokeh figures *)

Section BokehJson.

Variables Figure FormatFcn Document : Type.

(** [Document(title=curdoc().title)], [Document.add_root] and
    [Document.to_json_string] are bokeh's. *)
Variable new_document : result Document.
Variable add_root : Document -> option (Page.plot_obj Figure) -> result Document.
Variable to_json_string : Document -> result string.

(** [element.plot_obj]: a PageElement stores the plotted object as
    [plot_object] and has no attribute of this name. *)
Definition plot_obj_attribute (element : Page.Element Figure FormatFcn)
  : result (option (Page.plot_obj Figure)) :=
  Raise AttributeError.

(** The loop of [bokeh_json_string] over [self._bokeh_figs]. *)
Fixpoint add_roots (t_doc : Document)
    (elements : list (Page.Element Figure FormatFcn)) : result Document :=
  match elements with
  | [] => Ok t_doc
  | element :: rest =>
      obj <- plot_obj_attribute element ;;
      t_doc <- add_root t_doc obj ;;
      add_roots t_doc rest
  end.

(** The [bokeh_json_string] property. *)
Definition bokeh_json_string (self : Page.CompositePage Figure FormatFcn)
  : result string :=
  t_doc <- new_document ;;
  t_doc <- add_roots t_doc (Page._bokeh_figs self) ;;
  to_json_string t_doc.

End BokehJson.

(** ** Sample pages *)

Module PageSample.

(** A page whose figures, axes, keyword arguments and row formatters
    carry no information, with a table renderer that always raises and
    a plot renderer that always succeeds. *)
Definition page : Type := Page.CompositePage unit unit.

Definition new_page : page := Page.CompositePage_init (Some "Report") None false.

Definition run (c : Page.call unit unit unit unit) (o : CompositePage.pd_options)
    (self : page) : result unit * page :=
  Page.perform Sample.failing_to_html (fun df => Ok df) (fun _ => true)
    (fun _ => true) (fun a => Ok a) (fun _ _ => Ok "<img>") c o self.

Definition add_figure : Page.call unit unit unit unit :=
  Page.AddBokehFigure tt (Some "Plot") None.

Definition add_frame : Page.call unit unit unit unit :=
  Page.AddTable Sample.frame_x None None true true None None.

End PageSample.

(** ** Names as attributes of a row tuple *)

Definition ascii_letter (c : ascii) : bool :=
  let n := nat_of_ascii c in
  ((65 <=? n) && (n <=? 90) || (97 <=? n) && (n <=? 122))%nat.

Definition py_keywords : list string :=
  ["False"; "None"; "True"; "and"; "as"; "assert"; "async"; "await"; "break";
   "class"; "continue"; "def"; "del"; "elif"; "else"; "except"; "finally";
   "for"; "from"; "global"; "if"; "import"; "in"; "is"; "lambda"; "nonlocal";
   "not"; "or"; "pass"; "raise"; "return"; "try"; "while"; "with"; "yield"].

Fixpoint all_chars (p : ascii -> bool) (s : string) : bool :=
  match s with
  | EmptyString => true
  | String c rest => p c && all_chars p rest
  end.

(** A column name that [itertuples] keeps as the name of a field: an
    identifier that starts with a letter and is no keyword. *)
Definition kept_by_itertuples (nm : string) : bool :=
  match nm with
  | EmptyString => false
  | String c _ =>
      ascii_letter c && all_chars CompositePage.name_char nm
      && negb (existsb (String.eqb nm) py_keywords)
  end.

(** A name that is no attribute of tuples as such: it starts with a
    letter and is neither [count] nor [index]. *)
Definition no_tuple_attribute (nm : string) : bool :=
  match nm with
  | EmptyString => false
  | String c _ =>
      ascii_letter c && negb (String.eqb nm "count")
      && negb (String.eqb nm "index")
  end.

(** ** More sample inputs *)

Module MoreSamples.

(** A stand-in for the interpreter's float [repr] on inputs that hold
    no float cell. *)
Definition fixed_repr : Float64.t -> string := Float64.format_f 1.

(** A data-flagged descriptor for a column that [frame_x] lacks. *)
Definition array_missing : TableFieldArray :=
  TableFieldArray_init (Some [Sample.plain_field "z"]) (Some Sample.frame_x).

(** A visible descriptor that is neither data-flagged nor given a
    value function. *)
Definition field_w : TableField :=
  {| name := "w"; is_data := false; visible := true; fcn := None;
     _header := None; _attributes_fcn := None |}.

Definition array_w : TableFieldArray :=
  TableFieldArray_init (Some [Sample.field_hidden; field_w]) (Some Sample.frame_xy).

Definition changes : list reassignment :=
  [AssignData (Some Sample.frame_x); AssignTableFields [Sample.field_b]].

Definition row_with_cell : body_row := {| row_v := [PStr "1"]; row_a := [[]] |}.
Definition row_without_cell : body_row := {| row_v := []; row_a := [] |}.

(** The row [Pandas(Index=0, x=0.5)]. *)
Definition row_x : Row := [("Index", PInt 0); ("x", PFloat Float64.half)].

(** [format_factory('int', 'x', precision=2)] *)
Definition int_with_precision : option (Row -> result pyval) :=
  format_factory Sample.no_float_strings "int" "x" [("precision", PInt 2)].

(** [-9.25] and [1234567.0] *)
Definition minus_nine_and_a_quarter : Float64.t := Float64.ldexp (-37) (-2).
Definition some_millions : Float64.t := Float64.of_int 1234567.

(** A page with two figures. *)
Definition two_figures : PageSample.page :=
  snd (PageSample.run PageSample.add_figure Sample.options
         (snd (PageSample.run PageSample.add_figure Sample.options
                 PageSample.new_page))).

End MoreSamples.

(** * Properties *)

(** ** Lists built under [result] *)

Lemma mapM_length {A B} (f : A -> result B) (xs : list A) (ys : list B) :
  mapM f xs = Ok ys -> List.length ys = List.length xs.
Proof.
  revert ys; induction xs as [|x xs IH]; intros ys; simpl.
  - intros [= <-]; reflexivity.
  - destruct (f x) as [y|e]; simpl; [|discriminate].
    destruct (mapM f xs) as [zs|e]; simpl; [|discriminate].
    intros [= <-]; simpl; f_equal; apply IH; reflexivity.
Qed.

Lemma format_row_lengths (formatters : list formatter) (row : Row) vals attrs :
  format_row formatters row = Ok (vals, attrs) ->
  List.length vals = List.length formatters /\ List.length attrs = List.length formatters.
Proof.
  revert vals attrs.
  induction formatters as [|[f g] rest IH]; intros vals attrs; simpl.
  - intros [= <- <-]; split; reflexivity.
  - destruct (f row) as [val|e]; simpl; [|discriminate].
    destruct (g row) as [attr|e]; simpl; [|discriminate].
    destruct (format_row rest row) as [[vs ats]|e]; simpl; [|discriminate].
    intros [= <- <-]; destruct (IH vs ats eq_refl) as [Hv Ha].
    simpl; split; congruence.
Qed.

Lemma format_rows_lengths (formatters : list formatter) (rows : list Row) :
  Forall (fun va => List.length (fst va) = List.length formatters
                    /\ List.length (snd va) = List.length formatters)
         (fst (format_rows formatters rows)).
Proof.
  induction rows as [|row rest IH]; simpl.
  - constructor.
  - destruct (format_row formatters row) as [[vals attrs]|e] eqn:E; simpl.
    + constructor; [|exact IH].
      simpl; eapply format_row_lengths; eassumption.
    + constructor.
Qed.

Lemma filter_visible_length (fields : list TableField) :
  List.length (filter visible fields) = count_visible fields.
Proof.
  induction fields as [|f rest IH]; simpl; [reflexivity|].
  destruct (visible f); simpl; congruence.
Qed.

(** ** The table template *)

Section TemplateFacts.

Variable float_repr : Float64.t -> string.

Lemma render_row_with_cell_raises (row : body_row) :
  row_v row <> [] -> render_row float_repr row = Raise UndefinedError.
Proof.
  unfold render_row; destruct (row_v row) as [|val vals]; [congruence|].
  intros _; reflexivity.
Qed.

Lemma render_row_without_cell (row : body_row) :
  row_v row = [] -> exists s, render_row float_repr row = Ok s.
Proof.
  unfold render_row; intros ->; simpl; eexists; reflexivity.
Qed.

(** As soon as one row of the body holds a value, rendering raises:
    the template asks the row's list of attribute dicts for [items]. *)
Lemma TPL_TABLE_render_cells_raise (head : list header_val) (body : list body_row) :
  Exists (fun row => row_v row <> []) body ->
  TPL_TABLE_render float_repr head body = Raise UndefinedError.
Proof.
  intros H.
  assert (Hm : mapM (render_row float_repr) body = Raise UndefinedError).
  { induction H as [row rest Hrow | row rest _ IH]; simpl.
    - rewrite (render_row_with_cell_raises row Hrow); reflexivity.
    - destruct (row_v row) as [|val vals] eqn:E.
      + destruct (render_row_without_cell row E) as [s ->]; simpl.
        rewrite IH; reflexivity.
      + rewrite render_row_with_cell_raises by congruence; reflexivity. }
  unfold TPL_TABLE_render, render_body.
  destruct body as [|row rest]; [inversion H|].
  rewrite Hm; reflexivity.
Qed.

End TemplateFacts.

(** ** The projection engine *)

Section ProjectionFacts.

Variable float_repr : Float64.t -> string.

Lemma get_column_formatters_length (self : TableFieldArray) :
  List.length (get_column_formatters float_repr self)
  = count_visible (table_fields self).
Proof.
  unfold get_column_formatters, get_output_functions,
    get_output_tag_attribute_functions, _filter_visible, formatter.
  rewrite length_combine, !length_map, Nat.min_id.
  apply filter_visible_length.
Qed.

(** What [table_dict] builds depends on the descriptors and the
    dataset only, not on what is cached. *)
Lemma build_table_dict_inputs (self other : TableFieldArray) :
  _table_fields self = _table_fields other ->
  _data self = _data other ->
  build_table_dict float_repr self = build_table_dict float_repr other.
Proof.
  intros Hf Hd.
  unfold build_table_dict, iter_formatted_rows, get_column_formatters,
    get_output_functions, get_output_tag_attribute_functions, get_output_header,
    iter_data_rows, get_data_fields, _filter_visible, _filter_data,
    table_fields, data.
  rewrite Hf, Hd; reflexivity.
Qed.

Lemma table_dict_after_reset (self : TableFieldArray) :
  _table_dict self = None ->
  fst (table_dict float_repr self) = build_table_dict float_repr self.
Proof.
  unfold table_dict; intros ->.
  destruct (build_table_dict float_repr self); reflexivity.
Qed.

(** C1: read [table_html], assign new descriptors, read both outputs
    again.  [table_dict] shows the new header, [table_html] still
    returns the page rendered from the old descriptors, which is not
    what the template makes of the current [table_dict]. *)
Theorem table_html_survives_reassignment :
  let s1 := snd (table_html float_repr Sample.array_a) in
  let s2 := set_table_fields [Sample.field_b] s1 in
  let s3 := snd (table_dict float_repr s2) in
  fst (table_dict float_repr s2) = Ok {| thead_v := [HStr "b"]; tbody := [] |}
  /\ fst (table_html float_repr s3) = fst (table_html float_repr Sample.array_a)
  /\ fst (table_html float_repr s3) <> TPL_TABLE_render float_repr [HStr "b"] [].
Proof.
  cbv zeta; repeat split; try reflexivity.
  vm_compute; discriminate.
Qed.

(** C2: one visible column whose attribute function returns
    [{'class': 'c'}] on every row.  [table_dict] carries the mapping
    for each cell; [table_html] raises instead of rendering a [<td>]. *)
Theorem table_html_cell_attributes_raise :
  fst (table_dict float_repr Sample.array_x_class)
  = Ok {| thead_v := [HStr "x"];
          tbody := [ {| row_v := [PStr "1"]; row_a := [[("class", "c")]] |};
                     {| row_v := [PStr "2"]; row_a := [[("class", "c")]] |} ] |}
  /\ fst (table_html float_repr Sample.array_x_class) = Raise UndefinedError.
Proof.
  split; reflexivity.
Qed.

(** C5: a second read of [table_dict] returns what the first one
    returned and leaves the instance as the first one left it; after
    [data] or [table_fields] is assigned, the read returns what a
    fresh instance holding the new inputs would build. *)
Theorem table_dict_memoized_and_invalidated (self : TableFieldArray) :
  table_dict float_repr (snd (table_dict float_repr self))
  = table_dict float_repr self
  /\ (forall val,
        fst (table_dict float_repr (set_data val self))
        = build_table_dict float_repr
            (TableFieldArray_init (Some (table_fields self)) val))
  /\ (forall val,
        fst (table_dict float_repr (set_table_fields val self))
        = build_table_dict float_repr
            (TableFieldArray_init (Some val) (data self))).
Proof.
  split; [|split].
  - unfold table_dict at 2 3.
    destruct (_table_dict self) as [d|] eqn:Hc; simpl.
    + unfold table_dict; rewrite Hc; reflexivity.
    + destruct (build_table_dict float_repr self) as [d|e] eqn:Hb; simpl.
      * reflexivity.
      * unfold table_dict; rewrite Hc, Hb; reflexivity.
  - intros val; rewrite table_dict_after_reset by reflexivity.
    apply build_table_dict_inputs; reflexivity.
  - intros val; rewrite table_dict_after_reset by reflexivity.
    apply build_table_dict_inputs; reflexivity.
Qed.

(** C6: the header has one entry per visible descriptor, and so have
    the value list and the attribute list of every pair that
    [iter_formatted_rows] yields. *)
Theorem output_widths_agree (self : TableFieldArray) :
  List.length (get_output_header self) = count_visible (table_fields self)
  /\ Forall (fun va =>
               List.length (fst va) = count_visible (table_fields self)
               /\ List.length (snd va) = count_visible (table_fields self))
            (fst (iter_formatted_rows float_repr self)).
Proof.
  split.
  - unfold get_output_header, _filter_visible.
    rewrite length_map; apply filter_visible_length.
  - unfold iter_formatted_rows.
    destruct (iter_data_rows self) as [rows|e]; simpl; [|constructor].
    rewrite <- get_column_formatters_length.
    apply format_rows_lengths.
Qed.

End ProjectionFacts.

(** ** Lookup of a descriptor by name *)

Lemma find_field_missing (nm : string) (fields : list TableField) :
  (forall f, In f fields -> name f <> nm) -> find_field nm fields = Raise KeyError.
Proof.
  induction fields as [|g rest IH]; intros H; simpl; [reflexivity|].
  destruct (String.eqb_spec (name g) nm) as [E|_].
  - exfalso; apply (H g); [left; reflexivity | exact E].
  - apply IH; intros f Hf; apply H; right; exact Hf.
Qed.

Lemma find_field_present (nm : string) (fields : list TableField) (f : TableField) :
  In f fields -> name f = nm ->
  exists g, find_field nm fields = Ok g /\ In g fields /\ name g = nm.
Proof.
  induction fields as [|h rest IH]; intros Hin Hnm; [destruct Hin|]; simpl.
  destruct (String.eqb_spec (name h) nm) as [E|N].
  - exists h; repeat split; [left; reflexivity | exact E].
  - destruct Hin as [->|Hin]; [contradiction|].
    destruct (IH Hin Hnm) as (g & Hg & Hing & Hgn).
    exists g; repeat split; [exact Hg | right; exact Hing | exact Hgn].
Qed.

Lemma find_field_unique (nm : string) (fields : list TableField) (f : TableField) :
  NoDup (map name fields) -> In f fields -> name f = nm ->
  find_field nm fields = Ok f.
Proof.
  induction fields as [|h rest IH]; intros Hnd Hin Hnm; [destruct Hin|]; simpl.
  inversion Hnd as [|? ? Hnotin Hnd']; subst.
  destruct Hin as [->|Hin].
  - rewrite String.eqb_refl; reflexivity.
  - destruct (String.eqb_spec (name h) (name f)) as [E|_].
    + exfalso; apply Hnotin; rewrite E; apply in_map; exact Hin.
    + apply IH; [exact Hnd' | exact Hin | reflexivity].
Qed.

(** C9: a name that no descriptor carries makes [get_field] and
    indexing raise [KeyError], the lookup error of the code; a name
    that a descriptor carries yields a descriptor of that name, and that
    very descriptor when names are unique. *)
Theorem get_field_by_name (self : TableFieldArray) (nm : string) :
  ((forall f, In f (table_fields self) -> name f <> nm) ->
   get_field self nm = Raise KeyError /\ __getitem__ self nm = Raise KeyError)
  /\ (forall f, In f (table_fields self) -> name f = nm ->
        (exists g, get_field self nm = Ok g /\ __getitem__ self nm = Ok g
                   /\ In g (table_fields self) /\ name g = nm)
        /\ (NoDup (map name (table_fields self)) -> get_field self nm = Ok f)).
Proof.
  unfold __getitem__, get_field; split.
  - intros H; split; apply find_field_missing; exact H.
  - intros f Hin Hnm; split.
    + destruct (find_field_present nm _ f Hin Hnm) as (g & Hg & Hing & Hgn).
      exists g; auto.
    + intros Hnd; apply find_field_unique; assumption.
Qed.

Lemma get_field_by_name_witness :
  get_field Sample.array_mixed "y" = Raise KeyError
  /\ get_field Sample.array_mixed "twice" = Ok Sample.field_derived.
Proof.
  split.
  - apply (proj1 (get_field_by_name Sample.array_mixed "y")).
    intros f [<-|[<-|[]]]; discriminate.
  - apply (proj2 (get_field_by_name Sample.array_mixed "twice") Sample.field_derived).
    + right; left; reflexivity.
    + reflexivity.
    + repeat constructor; simpl; intuition discriminate.
Defined.

(** ** The static formatters *)

Section FormatterFacts.

Variable float_of_str : string -> option Float64.t.

(** C3: with [none_to_zero=False] an absent value does not raise; the
    call returns the string ['None'].  With [none_to_zero=True] it
    returns the integer [0]. *)
Theorem format_int_of_none :
  format_int float_of_str PNone false = Ok (PStr "None")
  /\ format_int float_of_str PNone true = Ok (PInt 0).
Proof.
  split; reflexivity.
Qed.

(** A float that is neither infinite nor NaN is truncated toward zero
    and printed as an integer. *)
Lemma format_int_of_float (x : Float64.t) (none_to_zero : bool) (n : Z) :
  Float64.to_int x = Ok n ->
  format_int float_of_str (PFloat x) none_to_zero = Ok (PStr (str_of_int n)).
Proof.
  intros H; unfold format_int; simpl; rewrite H; reflexivity.
Qed.

End FormatterFacts.

(** ** Page elements *)

Module CompositePageFacts.
Import CompositePage.

Lemma strip_invalid_length_le (s : string) :
  (String.length (strip_invalid s) <= String.length s)%nat.
Proof.
  induction s as [|c s IH]; simpl; [lia|].
  destruct (name_char c); simpl; lia.
Qed.

Lemma strip_invalid_keeps_length (s : string) :
  String.length s = String.length (strip_invalid s)
  <-> forall c, In c (list_ascii_of_string s) -> name_char c = true.
Proof.
  induction s as [|c s IH]; simpl.
  - split; [intros _ ? [] | reflexivity].
  - destruct (name_char c) eqn:E; simpl.
    + split.
      * intros [= H] c' [<-|Hin]; [exact E | apply IH; assumption].
      * intros H; f_equal; apply IH; intros c' Hin; apply H; right; exact Hin.
    + split.
      * intros H; pose proof (strip_invalid_length_le s); lia.
      * intros H; specialize (H c (or_introl eq_refl)); congruence.
Qed.

Lemma not_all_valid (s : string) :
  ~ (forall c, In c (list_ascii_of_string s) -> name_char c = true)
  <-> exists c, In c (list_ascii_of_string s) /\ name_char c = false.
Proof.
  split.
  - induction s as [|c s IH]; simpl; intros H.
    + exfalso; apply H; intros ? [].
    + destruct (name_char c) eqn:E.
      * destruct IH as (c' & Hin & Hc').
        { intros Hall; apply H; intros c' [<-|Hin]; auto. }
        exists c'; split; [right|]; assumption.
      * exists c; split; [left; reflexivity | exact E].
  - intros (c & Hin & Hc) Hall; rewrite (Hall c Hin) in Hc; discriminate.
Qed.

End CompositePageFacts.

(** C4, as the claim states it for a column descriptor: building the
    descriptor named ["bad name!"] does not fail. *)
Lemma table_field_bad_name_accepted :
  ~ (exists e, TableField_init "bad name!" true true None None None = Raise e).
Proof.
  intros [e H]; discriminate H.
Qed.

(** C4: a page element built with a name fails with [ValueError], the
    invalid-name error of the code, exactly when the name holds a
    character outside [[0-9A-Za-z_]]; ["bad name!"] fails and
    ["bad_name_1"] succeeds; without a name the element is built; a
    column descriptor is built whatever its name. *)
Theorem page_element_name_validation (PlotObject FormatFcn : Type) (index : Z)
    (title caption : option string) (plot_object : option PlotObject)
    (format_fcn : option FormatFcn) (nm : string) :
  let init := CompositePage.PageElement_init PlotObject FormatFcn
                index title caption plot_object in
  (init (Some nm) format_fcn = Raise ValueError
   <-> exists c, In c (list_ascii_of_string nm) /\ CompositePage.name_char c = false)
  /\ (is_ok (init (Some nm) format_fcn) = true
      <-> forall c, In c (list_ascii_of_string nm) -> CompositePage.name_char c = true)
  /\ is_ok (init None format_fcn) = true
  /\ init (Some "bad name!") format_fcn = Raise ValueError
  /\ is_ok (init (Some "bad_name_1") format_fcn) = true
  /\ (forall is_data visible fcn header attributes_fcn,
        is_ok (TableField_init nm is_data visible fcn header attributes_fcn) = true).
Proof.
  cbv zeta; unfold CompositePage.PageElement_init.
  pose proof (CompositePageFacts.strip_invalid_keeps_length nm) as Hkeep.
  pose proof (CompositePageFacts.not_all_valid nm) as Hnot.
  destruct (Nat.eqb_spec (String.length nm)
              (String.length (CompositePage.strip_invalid nm))) as [E|N].
  - repeat split; try reflexivity; try discriminate.
    + intros H; exfalso; apply Hnot in H; apply H; apply Hkeep; exact E.
    + intros _; apply Hkeep; exact E.
  - repeat split; try reflexivity; try discriminate.
    + intros _; apply Hnot; intros H; apply N; apply Hkeep; exact H.
    + intros H; exfalso; apply N; apply Hkeep; exact H.
Qed.

(** ** Display options around [df_to_html] *)

Section RenderingFacts.

Variable to_html : CompositePage.pd_options -> DataFrame -> result string.
Variable _convert_int_columns : DataFrame -> result DataFrame.
Variable valid_colwidth : option Z -> bool.

(** C10: when the column width in force is one that [pd.set_option]
    accepts back, the display options after [df_to_html] are the
    options before it, whatever [to_html] does with the frame, return
    or raise. *)
Theorem df_to_html_restores_options (df : DataFrame)
    (int_convert non_scientific : bool) (o : CompositePage.pd_options) :
  valid_colwidth (CompositePage.max_colwidth o) = true ->
  snd (CompositePage.df_to_html to_html _convert_int_columns valid_colwidth
         df int_convert non_scientific o) = o.
Proof.
  intros Hold.
  unfold CompositePage.df_to_html, CompositePage.render_and_restore.
  destruct (if int_convert then _convert_int_columns df else Ok df) as [df'|e];
    [|reflexivity].
  unfold CompositePage.set_max_colwidth.
  rewrite Hold.
  destruct (valid_colwidth (Some (-1))); [|reflexivity].
  destruct o as [w f]; destruct non_scientific; reflexivity.
Qed.

(** While [to_html] runs, the column width limit is off, and the
    class's own float format is in force when asked for. *)
Lemma df_to_html_outcome (df : DataFrame) (o : CompositePage.pd_options) :
  valid_colwidth (Some (-1)) = true ->
  valid_colwidth (CompositePage.max_colwidth o) = true ->
  fst (CompositePage.df_to_html to_html _convert_int_columns valid_colwidth
         df false true o)
  = to_html {| CompositePage.max_colwidth := Some (-1);
               CompositePage.float_format := Some CompositePage.NonScientific |} df.
Proof.
  intros Hoff Hold.
  unfold CompositePage.df_to_html, CompositePage.render_and_restore,
    CompositePage.set_max_colwidth.
  rewrite Hoff; cbn; rewrite Hold; reflexivity.
Qed.

End RenderingFacts.

Lemma df_to_html_restores_options_witness :
  CompositePage.df_to_html Sample.failing_to_html (fun df => Ok df) (fun _ => true)
    Sample.frame_x true true Sample.options
  = (Raise (UserError "to_html"), Sample.options).
Proof.
  apply injective_projections.
  - reflexivity.
  - apply (df_to_html_restores_options Sample.failing_to_html (fun df => Ok df)
             (fun _ => true) Sample.frame_x true true Sample.options).
    reflexivity.
Defined.

(** ** The renamed dataset *)

Lemma assoc_dict_set_same {A} (k : string) (x : A) (d : list (string * A)) :
  assoc k (dict_set k x d) = Some x.
Proof.
  induction d as [|[k' y] d IH]; simpl.
  - rewrite String.eqb_refl; reflexivity.
  - destruct (String.eqb k k') eqn:E; simpl; rewrite E; [reflexivity | exact IH].
Qed.

Lemma assoc_dict_set_other {A} (k k0 : string) (x : A) (d : list (string * A)) :
  k <> k0 -> assoc k (dict_set k0 x d) = assoc k d.
Proof.
  intros N; induction d as [|[k' y] d IH]; simpl.
  - destruct (String.eqb_spec k k0); [contradiction | reflexivity].
  - destruct (String.eqb_spec k0 k') as [<-|N']; simpl.
    + destruct (String.eqb_spec k k0); [contradiction | reflexivity].
    + destruct (String.eqb k k'); [reflexivity | exact IH].
Qed.

Lemma assoc_dict_set_all_other {A} (k : string) (kvs d : list (string * A)) :
  ~ In k (map fst kvs) -> assoc k (dict_set_all kvs d) = assoc k d.
Proof.
  revert d; induction kvs as [|[k0 x] kvs IH]; intros d H; simpl; [reflexivity|].
  unfold dict_set_all in *; simpl; rewrite IH.
  - apply assoc_dict_set_other; intros ->; apply H; left; reflexivity.
  - intros Hin; apply H; right; exact Hin.
Qed.

Lemma rename_all_columns (ks vs : list string) (d : list (string * string)) :
  NoDup ks -> List.length ks = List.length vs ->
  map (fun c => match assoc c (dict_set_all (combine ks vs) d) with
                | Some c' => c'
                | None => c
                end) ks = vs.
Proof.
  revert vs d; induction ks as [|k ks IH]; intros [|v vs] d Hnd Hlen;
    try discriminate; [reflexivity|].
  inversion Hnd as [|? ? Hnotin Hnd']; subst.
  simpl; f_equal.
  - change (fold_left _ (combine ks vs) (dict_set k v d))
      with (dict_set_all (combine ks vs) (dict_set k v d)).
    rewrite assoc_dict_set_all_other.
    + rewrite assoc_dict_set_same; reflexivity.
    + intros Hin; apply Hnotin.
      clear - Hin; revert vs Hin; induction ks as [|k' ks IH]; intros [|v' vs] Hin;
        simpl in *; try contradiction.
      destruct Hin as [->|Hin]; [left; reflexivity | right; eapply IH; eassumption].
  - apply (IH vs (dict_set k v d) Hnd'); simpl in Hlen; congruence.
Qed.

Lemma build_rename_ok (pairs : list (header_val * string))
    (acc : list (string * string)) (names : list string) :
  mapM header_column_name (map fst pairs) = Ok names ->
  build_rename pairs acc = Ok (dict_set_all (combine (map snd pairs) names) acc).
Proof.
  revert acc names; induction pairs as [|[h f] pairs IH]; intros acc names; simpl.
  - intros [= <-]; reflexivity.
  - destruct (header_column_name h) as [s|e]; simpl; [|discriminate].
    destruct (mapM header_column_name (map fst pairs)) as [ns|e] eqn:E;
      simpl; [|discriminate].
    intros [= <-]; simpl; apply IH; reflexivity.
Qed.

Lemma build_rename_raises (pairs : list (header_val * string))
    (acc : list (string * string)) :
  Exists (fun h => header_column_name h = Raise AttributeError) (map fst pairs) ->
  build_rename pairs acc = Raise AttributeError.
Proof.
  revert acc; induction pairs as [|[h f] pairs IH]; intros acc H; simpl in *.
  - inversion H.
  - destruct h as [s|r [s|]]; simpl; try reflexivity;
      inversion H as [? ? Hh|? ? Ht]; subst; try discriminate; apply IH; exact Ht.
Qed.

Lemma combine_map_fields {A B C} (f : A -> B) (g : A -> C) (l : list A) :
  combine (map f l) (map g l) = map (fun x => (f x, g x)) l.
Proof.
  induction l as [|x l IH]; simpl; congruence.
Qed.

(** C7, as the claim states it: with the integer [5] as header of a
    data column, [df_pretty] does not return a frame whose columns are
    named by the headers' string representations. *)
Lemma df_pretty_not_by_representation :
  ~ (exists d, fst (df_pretty Sample.array_int_header) = Ok d
               /\ df_columns d
                  = map header_str (get_data_header Sample.array_int_header)).
Proof.
  intros (d & H & _); discriminate H.
Qed.

(** C7: with distinct data-flagged names that are all columns of the
    dataset, [df_pretty] returns the dataset restricted to those columns,
    each named by its header when that is a string and by the header's
    [.string] attribute when it is not; a header that is no string and
    has no such attribute makes the read raise [AttributeError]. *)
Theorem df_pretty_renames_by_string_attribute (self : TableFieldArray)
    (df : DataFrame) :
  _df_pretty self = None ->
  data self = Some df ->
  forallb (has_column df) (get_data_fields self) = true ->
  NoDup (get_data_fields self) ->
  (forall names,
      mapM header_column_name (get_data_header self) = Ok names ->
      exists d, df_getitem df (get_data_fields self) = Ok d
                /\ fst (df_pretty self)
                   = Ok {| df_columns := names; df_rows := df_rows d |})
  /\ (Exists (fun h => header_column_name h = Raise AttributeError)
             (get_data_header self) ->
      fst (df_pretty self) = Raise AttributeError).
Proof.
  intros Hcache Hdata Hcols Hnd.
  unfold df_pretty; rewrite Hcache.
  unfold build_df_pretty; rewrite Hdata.
  unfold get_data_header, get_data_fields in *.
  rewrite combine_map_fields.
  set (pairs := map (fun x => (header x, name x)) (_filter_data self)).
  assert (Hfst : map fst pairs = map header (_filter_data self))
    by (unfold pairs; rewrite map_map; reflexivity).
  assert (Hsnd : map snd pairs = map name (_filter_data self))
    by (unfold pairs; rewrite map_map; reflexivity).
  split.
  - intros names Hnames.
    rewrite (build_rename_ok pairs [] names) by (rewrite Hfst; exact Hnames).
    unfold df_getitem; rewrite Hcols; simpl.
    eexists; split; [reflexivity|].
    unfold df_rename; simpl; do 2 f_equal.
    rewrite Hsnd; apply rename_all_columns; [exact Hnd|].
    apply mapM_length in Hnames; rewrite !length_map in *; congruence.
  - intros Hex.
    rewrite (build_rename_raises pairs []) by (rewrite Hfst; exact Hex).
    reflexivity.
Qed.

Lemma df_pretty_renames_by_string_attribute_witness :
  (exists d, df_getitem Sample.frame_xy ["x"] = Ok d
             /\ fst (df_pretty Sample.array_tag_header)
                = Ok {| df_columns := ["Total"]; df_rows := df_rows d |})
  /\ fst (df_pretty Sample.array_int_header) = Raise AttributeError.
Proof.
  split.
  - apply (proj1 (df_pretty_renames_by_string_attribute
                    Sample.array_tag_header Sample.frame_xy
                    eq_refl eq_refl eq_refl
                    (NoDup_cons "x" (fun H : In "x" [] => H) (NoDup_nil string)))
             ["Total"]).
    reflexivity.
  - apply (proj2 (df_pretty_renames_by_string_attribute
                    Sample.array_int_header Sample.frame_xy
                    eq_refl eq_refl eq_refl
                    (NoDup_cons "x" (fun H : In "x" [] => H) (NoDup_nil string)))).
    constructor; reflexivity.
Defined.

(** ** Decimal numerals *)

Module NumeralFacts.

Lemma digit_cases (d : Z) :
  0 <= d < 10 ->
  d = 0 \/ d = 1 \/ d = 2 \/ d = 3 \/ d = 4 \/ d = 5 \/ d = 6 \/ d = 7
  \/ d = 8 \/ d = 9.
Proof. lia. Qed.

Lemma digit_value_digit_char (d : Z) :
  0 <= d < 10 -> digit_value (digit_char d) = d.
Proof.
  intros H; destruct (digit_cases d H) as [E|[E|[E|[E|[E|[E|[E|[E|[E|E]]]]]]]]];
    subst d; reflexivity.
Qed.

Lemma is_digit_digit_char (d : Z) :
  0 <= d < 10 -> is_digit (digit_char d) = true.
Proof.
  intros H; unfold is_digit; rewrite digit_value_digit_char by exact H.
  apply andb_true_intro; split; [apply Z.leb_le | apply Z.leb_le]; lia.
Qed.

Lemma length_app (a b : string) :
  String.length (a ++ b) = (String.length a + String.length b)%nat.
Proof.
  induction a as [|c a IH]; simpl; [reflexivity | rewrite IH; reflexivity].
Qed.

Lemma app_assoc (a b c : string) : (a ++ b) ++ c = a ++ (b ++ c).
Proof.
  induction a as [|x a IH]; simpl; [reflexivity | rewrite IH; reflexivity].
Qed.

Lemma all_digits_app (a b : string) :
  all_digits (a ++ b) = all_digits a && all_digits b.
Proof.
  induction a as [|c a IH]; simpl; [reflexivity|].
  rewrite IH, andb_assoc; reflexivity.
Qed.

Lemma contains_char_app (c : ascii) (a b : string) :
  contains_char c (a ++ b) = contains_char c a || contains_char c b.
Proof.
  induction a as [|x a IH]; simpl; [reflexivity|].
  rewrite IH, orb_assoc; reflexivity.
Qed.

Lemma digits_value_from_app (acc : Z) (a b : string) :
  digits_value_from acc (a ++ b) = digits_value_from (digits_value_from acc a) b.
Proof.
  revert acc; induction a as [|c a IH]; intros acc; simpl; [reflexivity | apply IH].
Qed.

Lemma low_digits_length (k : nat) (n : Z) : String.length (low_digits k n) = k.
Proof.
  revert n; induction k as [|k IH]; intros n; simpl; [reflexivity|].
  rewrite length_app, IH; simpl; lia.
Qed.

Lemma low_digits_all_digits (k : nat) (n : Z) : all_digits (low_digits k n) = true.
Proof.
  revert n; induction k as [|k IH]; intros n; cbn [low_digits]; [reflexivity|].
  rewrite all_digits_app, IH; cbn [all_digits andb].
  rewrite is_digit_digit_char by (apply Z.mod_pos_bound; lia); reflexivity.
Qed.

Lemma low_digits_value (k : nat) (acc n : Z) :
  digits_value_from acc (low_digits k n) = acc * 10 ^ Z.of_nat k + n mod 10 ^ Z.of_nat k.
Proof.
  revert acc n; induction k as [|k IH]; intros acc n.
  - simpl; rewrite Z.mod_1_r; lia.
  - cbn [low_digits]; rewrite digits_value_from_app, IH; cbn [digits_value_from].
    rewrite digit_value_digit_char by (apply Z.mod_pos_bound; lia).
    rewrite Nat2Z.inj_succ, Z.pow_succ_r by lia.
    rewrite (Z.rem_mul_r n 10 (10 ^ Z.of_nat k)) by lia.
    ring.
Qed.

Lemma numeral_value (fuel : nat) (n : Z) :
  0 <= n < 2 ^ Z.of_nat fuel -> digits_value (numeral fuel n) = n.
Proof.
  unfold digits_value; revert n; induction fuel as [|fuel IH]; intros n H.
  - simpl in *; lia.
  - cbn [numeral]; destruct (Z.ltb_spec n 10) as [L|G].
    + cbn [digits_value_from]; rewrite digit_value_digit_char; lia.
    + rewrite digits_value_from_app, IH; cbn [digits_value_from].
      * rewrite digit_value_digit_char by (apply Z.mod_pos_bound; lia).
        pose proof (Z.div_mod n 10); lia.
      * rewrite Nat2Z.inj_succ, Z.pow_succ_r in H by lia.
        split; [apply Z.div_pos; lia|].
        apply Z.div_lt_upper_bound; lia.
Qed.

Lemma numeral_all_digits (fuel : nat) (n : Z) :
  0 <= n -> all_digits (numeral fuel n) = true.
Proof.
  revert n; induction fuel as [|fuel IH]; intros n H; [reflexivity|].
  cbn [numeral]; destruct (Z.ltb_spec n 10) as [L|G].
  - cbn [all_digits]; rewrite is_digit_digit_char by lia; reflexivity.
  - rewrite all_digits_app, IH by (apply Z.div_pos; lia); cbn [all_digits].
    rewrite is_digit_digit_char by (apply Z.mod_pos_bound; lia); reflexivity.
Qed.

Lemma numeral_nonempty (fuel : nat) (n : Z) : numeral (S fuel) n <> "".
Proof.
  cbn [numeral]; destruct (n <? 10); [discriminate|].
  destruct (numeral fuel (n / 10)); discriminate.
Qed.

Lemma str_of_nonneg_value (n : Z) : 0 <= n -> digits_value (str_of_nonneg n) = n.
Proof.
  intros H; unfold str_of_nonneg; apply numeral_value.
  split; [exact H|].
  rewrite Nat2Z.inj_succ, Z2Nat.id by apply Z.log2_nonneg.
  destruct (Z.eq_dec n 0) as [->|N]; [reflexivity|].
  apply Z.log2_spec; lia.
Qed.

Lemma str_of_nonneg_all_digits (n : Z) :
  0 <= n -> all_digits (str_of_nonneg n) = true.
Proof. intros H; apply numeral_all_digits; exact H. Qed.

Lemma str_of_nonneg_nonempty (n : Z) : str_of_nonneg n <> "".
Proof. apply numeral_nonempty. Qed.

End NumeralFacts.

(** ** Fixed-point rendering of a float *)

Module Float64Facts.
Import Float64 NumeralFacts.

(** [div_half_even] returns a nearest integer to [n / d], the even
    one of the two when [n / d] lies halfway. *)
Lemma div_half_even_nearest (n d : Z) :
  0 <= n -> 0 < d ->
  let q := div_half_even n d in
  0 <= q
  /\ 2 * Z.abs (q * d - n) <= d
  /\ (2 * Z.abs (q * d - n) = d -> Z.even q = true).
Proof.
  intros Hn Hd; cbv zeta; unfold div_half_even.
  pose proof (Z.div_mod n d ltac:(lia)) as E.
  pose proof (Z.mod_pos_bound n d Hd) as B.
  pose proof (Z.div_pos n d Hn Hd) as P.
  set (q := n / d) in *; set (r := n mod d) in *.
  destruct (Z.compare_spec (2 * r) d) as [C|C|C].
  - destruct (Z.even q) eqn:Ev.
    + repeat split; [lia | nia | intros _; exact Ev].
    + repeat split; [lia | nia |].
      intros _; rewrite Z.even_add, Ev; reflexivity.
  - repeat split; [lia | nia | nia].
  - repeat split; [lia | nia | nia].
Qed.

Lemma scaled_nearest (p : nat) (s : bool) (m : positive) (e : Z) :
  let q := scaled p m e in
  let nd := magnitude (S754_finite s m e) in
  0 <= q
  /\ 2 * Z.abs (q * snd nd - fst nd * 10 ^ Z.of_nat p) <= snd nd
  /\ (2 * Z.abs (q * snd nd - fst nd * 10 ^ Z.of_nat p) = snd nd ->
      Z.even q = true).
Proof.
  cbv zeta; unfold scaled, magnitude.
  assert (0 < 10 ^ Z.of_nat p) by (apply Z.pow_pos_nonneg; lia).
  destruct (Z.leb_spec 0 e) as [L|G]; cbn [fst snd].
  - assert (0 < 2 ^ e) by (apply Z.pow_pos_nonneg; lia).
    repeat split; [nia | | ].
    + replace (_ - _) with 0 by ring; simpl; lia.
    + replace (_ - _) with 0 by ring; simpl; lia.
  - assert (0 < 2 ^ (- e)) by (apply Z.pow_pos_nonneg; lia).
    apply div_half_even_nearest; nia.
Qed.

(** The text of a scaled integer: numeral of the integral part,
    point, and exactly [p] digits, which together denote it. *)
Lemma fixed_str_shape (p : nat) (n : Z) :
  0 <= n ->
  exists int frac,
    fixed_str p n = int ++ point p ++ frac
    /\ String.length frac = p
    /\ int <> ""
    /\ all_digits int = true
    /\ all_digits frac = true
    /\ digits_value (int ++ frac) = n.
Proof.
  intros H.
  assert (P : 0 < 10 ^ Z.of_nat p) by (apply Z.pow_pos_nonneg; lia).
  exists (str_of_nonneg (n / 10 ^ Z.of_nat p)),
         (low_digits p (n mod 10 ^ Z.of_nat p)).
  assert (Q : 0 <= n / 10 ^ Z.of_nat p) by (apply Z.div_pos; lia).
  repeat split.
  - unfold fixed_str, fraction_str, point; destruct p; reflexivity.
  - apply low_digits_length.
  - apply str_of_nonneg_nonempty.
  - apply str_of_nonneg_all_digits; exact Q.
  - apply low_digits_all_digits.
  - unfold digits_value; rewrite digits_value_from_app, low_digits_value.
    fold (digits_value (str_of_nonneg (n / 10 ^ Z.of_nat p))).
    rewrite str_of_nonneg_value by exact Q.
    rewrite Z.mod_mod by lia.
    pose proof (Z.div_mod n (10 ^ Z.of_nat p)); lia.
Qed.

(** ['%.pf'] of a finite float: sign, numeral, point and [p] digits
    that denote the float's magnitude rounded to [p] decimals, to
    nearest and to even on a tie. *)
Lemma format_f_finite (p : nat) (x : t) :
  is_finite x = true ->
  exists int frac,
    format_f p x = sign_str (sign_bit x) ++ int ++ point p ++ frac
    /\ String.length frac = p
    /\ int <> ""
    /\ all_digits int = true
    /\ all_digits frac = true
    /\ (let q := digits_value (int ++ frac) in
        let nd := magnitude x in
        2 * Z.abs (q * snd nd - fst nd * 10 ^ Z.of_nat p) <= snd nd
        /\ (2 * Z.abs (q * snd nd - fst nd * 10 ^ Z.of_nat p) = snd nd ->
            Z.even q = true)).
Proof.
  destruct x as [s|s| |s m e]; try discriminate; intros _.
  - destruct (fixed_str_shape p 0 ltac:(lia))
      as (int & frac & E & Hl & Hn & Hi & Hf & Hv).
    exists int, frac; cbn [format_f sign_bit magnitude fst snd].
    rewrite E, Hv; repeat split; try assumption; try reflexivity.
    rewrite Z.mul_0_l; simpl; lia.
  - destruct (scaled_nearest p s m e) as (Hq & Hnear & Heven).
    destruct (fixed_str_shape p (scaled p m e) Hq)
      as (int & frac & E & Hl & Hn & Hi & Hf & Hv).
    exists int, frac; cbn [format_f sign_bit].
    rewrite E, Hv; repeat split; assumption.
Qed.

End Float64Facts.

(** ** The percentage formatter *)

(** C8, as the claim states it for every value that [float] accepts:
    the float infinity is such a value, and its rendering with
    precision 1 has no decimal point, hence no decimal place. *)
Lemma format_percent_of_infinity :
  ~ (exists pre frac,
        format_percent Sample.no_float_strings (PFloat Float64.inf) 1
        = Ok (PStr (pre ++ "." ++ frac ++ " %"))).
Proof.
  intros (pre & frac & H).
  change (format_percent Sample.no_float_strings (PFloat Float64.inf) 1)
    with (Ok (PStr "inf %")) in H.
  injection H as E.
  apply (f_equal (contains_char "."%char)) in E.
  rewrite NumeralFacts.contains_char_app in E.
  cbn [append contains_char Ascii.eqb] in E.
  rewrite orb_true_r in E; discriminate E.
Qed.

Section PercentFacts.

Variable float_of_str : string -> option Float64.t.

(** C8: [format_percent(0.5, 1)] is ["50.0 %"] and
    [format_percent(0.5, 0)] is ["50 %"]; for a value that [float]
    accepts, a precision [p >= 0] and a finite product
    [float(val) * 100.], the result is the sign, a numeral, the
    decimal point when [p > 0], exactly [p] digits and [" %"], and
    numeral and digits denote the product rounded to [p] decimals, to
    nearest and to even on a tie. *)
Theorem format_percent_renders (val : pyval) (precision : Z) (x : Float64.t) :
  (format_percent float_of_str (PFloat Float64.half) 1 = Ok (PStr "50.0 %")
   /\ format_percent float_of_str (PFloat Float64.half) 0 = Ok (PStr "50 %"))
  /\ (py_float float_of_str val = Ok x ->
      0 <= precision ->
      Float64.is_finite (Float64.mul x Float64.hundred) = true ->
      let y := Float64.mul x Float64.hundred in
      let p := Z.to_nat precision in
      exists int frac,
        format_percent float_of_str val precision
        = Ok (PStr (Float64.sign_str (Float64.sign_bit y)
                      ++ int ++ Float64.point p ++ frac ++ " %"))
        /\ String.length frac = p
        /\ int <> ""
        /\ all_digits int = true
        /\ all_digits frac = true
        /\ (let q := digits_value (int ++ frac) in
            let nd := Float64.magnitude y in
            2 * Z.abs (q * snd nd - fst nd * 10 ^ precision) <= snd nd
            /\ (2 * Z.abs (q * snd nd - fst nd * 10 ^ precision) = snd nd ->
                Z.even q = true))).
Proof.
  split; [split; reflexivity|].
  intros Hx Hp Hfin; cbv zeta.
  destruct (Float64Facts.format_f_finite (Z.to_nat precision) _ Hfin)
    as (int & frac & E & Hl & Hn & Hi & Hf & Hv).
  exists int, frac.
  rewrite Z2Nat.id in Hv by exact Hp.
  repeat split; try assumption; try apply Hv.
  unfold format_percent; rewrite Hx; cbn [bind].
  destruct (Z.ltb_spec precision 0) as [L|_]; [lia|].
  rewrite E, !NumeralFacts.app_assoc; reflexivity.
Qed.

End PercentFacts.

Lemma format_percent_renders_witness :
  exists int frac,
    format_percent Sample.no_float_strings (PFloat Float64.half) 1
    = Ok (PStr (int ++ "." ++ frac ++ " %"))
    /\ String.length frac = 1%nat
    /\ digits_value (int ++ frac) = 500.
Proof.
  destruct (proj2 (format_percent_renders Sample.no_float_strings
                     (PFloat Float64.half) 1 Float64.half)
              eq_refl ltac:(lia) eq_refl)
    as (int & frac & E & Hl & _ & _ & _ & Hv & _).
  exists int, frac; repeat split; [exact E | exact Hl |].
  cbv zeta in Hv.
  assert (M : Float64.magnitude (Float64.mul Float64.half Float64.hundred)
              = (7036874417766400, 140737488355328)) by (vm_compute; reflexivity).
  rewrite M in Hv; cbn [fst snd] in Hv; change (10 ^ 1) with 10 in Hv.
  lia.
Defined.

(** ** Output file names *)

Module OutputFacts.
Import Output.

Lemma file_char_space : file_char " " = false.
Proof. reflexivity. Qed.

Lemma file_char_underscore : file_char "_" = true.
Proof. reflexivity. Qed.

Lemma replace_spaces_app (a b : string) :
  replace_spaces (a ++ b) = replace_spaces a ++ replace_spaces b.
Proof.
  induction a as [|c a IH]; cbn [append replace_spaces]; [reflexivity|].
  rewrite IH; reflexivity.
Qed.

Lemma strip_non_file_app (a b : string) :
  strip_non_file (a ++ b) = strip_non_file a ++ strip_non_file b.
Proof.
  induction a as [|c a IH]; cbn [append strip_non_file]; [reflexivity|].
  rewrite IH; destruct (file_char c); reflexivity.
Qed.

Lemma strip_non_file_chars (s : string) (c : ascii) :
  In c (list_ascii_of_string (strip_non_file s)) -> file_char c = true.
Proof.
  induction s as [|x s IH]; cbn [strip_non_file list_ascii_of_string].
  - intros [].
  - destruct (file_char x) eqn:E; cbn [list_ascii_of_string]; [|exact IH].
    intros [<-|H]; [exact E | exact (IH H)].
Qed.

Lemma strip_non_file_length (s : string) :
  (String.length (strip_non_file s) <= String.length s)%nat.
Proof.
  induction s as [|x s IH]; cbn [strip_non_file String.length]; [lia|].
  destruct (file_char x); cbn [String.length]; lia.
Qed.

Lemma replace_spaces_length (s : string) :
  String.length (replace_spaces s) = String.length s.
Proof.
  induction s as [|x s IH]; cbn [replace_spaces String.length]; congruence.
Qed.

Lemma extract_name_all_file_chars (s : string) :
  (forall c, In c (list_ascii_of_string s) -> file_char c = true) ->
  extract_name s = s.
Proof.
  unfold extract_name.
  induction s as [|x s IH]; intros H; [reflexivity|].
  cbn [replace_spaces strip_non_file].
  assert (Hx : file_char x = true) by (apply H; left; reflexivity).
  destruct (Ascii.eqb_spec x " ") as [->|_]; [discriminate Hx|].
  rewrite Hx, IH; [reflexivity|].
  intros c Hc; apply H; right; exact Hc.
Qed.

End OutputFacts.

(** X1: whatever the name, [extract_name] returns a string of characters
    from [[0-9A-Za-z\-_.]] only, hence without space or path separator,
    and never a longer one. *)
Theorem extract_name_only_file_chars (name : string) :
  (forall c, In c (list_ascii_of_string (Output.extract_name name)) ->
             Output.file_char c = true)
  /\ contains_char " " (Output.extract_name name) = false
  /\ contains_char "/" (Output.extract_name name) = false
  /\ (String.length (Output.extract_name name) <= String.length name)%nat.
Proof.
  assert (H : forall c, In c (list_ascii_of_string (Output.extract_name name)) ->
                        Output.file_char c = true)
    by (intros c; apply OutputFacts.strip_non_file_chars).
  assert (N : forall (bad : ascii) (s : string),
             Output.file_char bad = false ->
             (forall c, In c (list_ascii_of_string s) -> Output.file_char c = true) ->
             contains_char bad s = false).
  { intros bad s Hbad; induction s as [|x s IH]; intros Hs; [reflexivity|].
    cbn [contains_char].
    destruct (Ascii.eqb_spec bad x) as [<-|_].
    - rewrite (Hs bad) in Hbad; [discriminate | left; reflexivity].
    - apply IH; intros c Hc; apply Hs; right; exact Hc. }
  repeat split.
  - exact H.
  - apply N; [reflexivity | exact H].
  - apply N; [reflexivity | exact H].
  - unfold Output.extract_name.
    pose proof (OutputFacts.strip_non_file_length (Output.replace_spaces name)).
    rewrite OutputFacts.replace_spaces_length in *; assumption.
Qed.

(** X2: [extract_name] leaves a name unchanged exactly when all its
    characters are in [[0-9A-Za-z\-_.]]; so sanitizing twice is
    sanitizing once, and a name that a page element accepts is a file
    name as it stands. *)
Theorem extract_name_fixed_points (name : string) :
  (Output.extract_name name = name
   <-> forall c, In c (list_ascii_of_string name) -> Output.file_char c = true)
  /\ Output.extract_name (Output.extract_name name) = Output.extract_name name
  /\ ((forall c, In c (list_ascii_of_string name) ->
                 CompositePage.name_char c = true) ->
      Output.extract_name name = name).
Proof.
  split; [split|split].
  - intros E c Hc; rewrite <- E in Hc.
    exact (OutputFacts.strip_non_file_chars _ c Hc).
  - apply OutputFacts.extract_name_all_file_chars.
  - apply OutputFacts.extract_name_all_file_chars.
    intros c; apply OutputFacts.strip_non_file_chars.
  - intros H; apply OutputFacts.extract_name_all_file_chars.
    intros c Hc; unfold Output.file_char; rewrite (H c Hc); reflexivity.
Qed.

Lemma extract_name_fixed_points_witness :
  Output.extract_name "bad_name_1" = "bad_name_1".
Proof.
  apply (proj2 (proj2 (extract_name_fixed_points "bad_name_1"))).
  intros c H; cbn in H.
  repeat (destruct H as [<-|H]; [reflexivity|]); destruct H.
Defined.

(** X3: [extract_name] works character by character: the name of a
    concatenation is the concatenation of the names, and a space
    between two parts becomes an underscore. *)
Theorem extract_name_concat (a b : string) :
  Output.extract_name (a ++ b) = Output.extract_name a ++ Output.extract_name b
  /\ Output.extract_name (a ++ " " ++ b)
     = Output.extract_name a ++ "_" ++ Output.extract_name b.
Proof.
  unfold Output.extract_name.
  rewrite !OutputFacts.replace_spaces_app, !OutputFacts.strip_non_file_app.
  split; reflexivity.
Qed.

(** ** Publishing *)

Lemma extract_name_empty (name : string) :
  Output.extract_name name = ""
  <-> forall c, In c (list_ascii_of_string name) ->
                c <> " "%char /\ Output.file_char c = false.
Proof.
  unfold Output.extract_name.
  induction name as [|x s IH]; cbn [Output.replace_spaces Output.strip_non_file
                                     list_ascii_of_string].
  - split; [intros _ c [] | reflexivity].
  - destruct (Ascii.eqb_spec x " ") as [->|Nx].
    + rewrite OutputFacts.file_char_underscore.
      split; [discriminate|].
      intros H; destruct (H " "%char (or_introl eq_refl)) as [N _]; congruence.
    + destruct (Output.file_char x) eqn:E.
      * split; [discriminate|].
        intros H; destruct (H x (or_introl eq_refl)) as [_ F]; congruence.
      * rewrite IH; split.
        -- intros H c [<-|Hc]; [split; assumption | apply H; exact Hc].
        -- intros H c Hc; apply H; right; exact Hc.
Qed.

Section PublishFacts.

Variable abspath : string -> string.

Lemma publish_named (title : option string) (html : result string)
    (nm : string) (overwrite : bool) (w : Output.world) :
  nm <> "" -> Output.extract_name nm <> "" ->
  Output.publish abspath title html (Some nm) overwrite w
  = let filepath := abspath (Output.extract_name nm ++ ".html") in
    if Output.path_exists w filepath && negb overwrite
    then (inl Output.FileExists, w)
    else match html with
         | Raise e =>
             (inl (Output.RenderingFailed e), Output.write_file filepath "" w)
         | Ok page =>
             (inr filepath,
              Output.print ("access output via: " ++ "file:///" ++ filepath)
                (Output.write_file filepath page
                   (Output.write_file filepath "" w)))
         end.
Proof.
  intros Hnm Hex; unfold Output.publish.
  destruct nm as [|c nm]; [congruence|].
  destruct (Output.extract_name (String c nm)) as [|c' s'] eqn:E; [congruence|].
  reflexivity.
Qed.

(** X4: [publish] falls back on the page title when no name, or the
    empty name, is given; with neither name nor title it fails before
    touching any file. *)
Theorem publish_name_fallback (title : option string) (html : result string)
    (overwrite : bool) (w : Output.world) :
  Output.publish abspath title html None overwrite w
  = Output.publish abspath title html title overwrite w
  /\ Output.publish abspath title html (Some "") overwrite w
     = Output.publish abspath title html title overwrite w
  /\ Output.publish abspath None html None overwrite w = (inl Output.NoName, w).
Proof.
  repeat split; destruct title as [[|c t]|]; reflexivity.
Qed.

(** X5: a name made only of characters that are neither in
    [[0-9A-Za-z\-_.]] nor spaces leaves no base name: [publish] fails
    with the invalid-basename error and writes nothing. *)
Theorem publish_invalid_basename (title : option string) (html : result string)
    (nm : string) (overwrite : bool) (w : Output.world) :
  nm <> "" ->
  (forall c, In c (list_ascii_of_string nm) ->
             c <> " "%char /\ Output.file_char c = false) ->
  Output.publish abspath title html (Some nm) overwrite w
  = (inl Output.InvalidBasename, w).
Proof.
  intros Hnm H; apply extract_name_empty in H.
  unfold Output.publish; destruct nm as [|c nm]; [congruence|].
  rewrite H; reflexivity.
Qed.

Lemma publish_blocked (title : option string) (html : result string)
    (nm : string) (w : Output.world) :
  nm <> "" -> Output.extract_name nm <> "" ->
  Output.path_exists w (abspath (Output.extract_name nm ++ ".html")) = true ->
  Output.publish abspath title html (Some nm) false w = (inl Output.FileExists, w).
Proof.
  intros Hnm Hex Hthere; rewrite publish_named by assumption.
  cbv zeta; rewrite Hthere; reflexivity.
Qed.

(** X6: when the target file exists and [overwrite] is off, [publish]
    fails with the file-exists error and leaves every file and the
    output as they were; the page is not even rendered. *)
Theorem publish_refuses_existing (title : option string) (html : result string)
    (nm : string) (w : Output.world) :
  nm <> "" -> Output.extract_name nm <> "" ->
  Output.path_exists w (abspath (Output.extract_name nm ++ ".html")) = true ->
  Output.publish abspath title html (Some nm) false w = (inl Output.FileExists, w).
Proof.
  intros Hnm Hex Hthere; rewrite publish_named by assumption.
  cbv zeta; rewrite Hthere; reflexivity.
Qed.

(** X7: when the target file is absent or [overwrite] is on, and the
    page renders, [publish] returns the absolute path of
    [<sanitized name>.html], that file holds the page, no other file
    changes, and one line naming the file URL is printed.  Publishing
    again under the same name fails without [overwrite] and returns
    the same path with it. *)
Theorem publish_writes_page (title : option string) (page page' : string)
    (nm : string) (overwrite : bool) (w : Output.world) :
  let filepath := abspath (Output.extract_name nm ++ ".html") in
  nm <> "" -> Output.extract_name nm <> "" ->
  Output.path_exists w filepath = false \/ overwrite = true ->
  exists w',
    Output.publish abspath title (Ok page) (Some nm) overwrite w
    = (inr filepath, w')
    /\ assoc filepath (Output.files w') = Some page
    /\ (forall p, p <> filepath ->
                  assoc p (Output.files w') = assoc p (Output.files w))
    /\ Output.printed w'
       = (Output.printed w
          ++ [("access output via: file:///" ++ filepath)%string])%list
    /\ Output.publish abspath title (Ok page') (Some nm) false w'
       = (inl Output.FileExists, w')
    /\ fst (Output.publish abspath title (Ok page') (Some nm) true w')
       = inr filepath.
Proof.
  intros filepath Hnm Hex Hfree.
  eexists; split.
  - rewrite publish_named by assumption; cbv zeta; fold filepath.
    destruct Hfree as [-> | ->]; [|rewrite andb_false_r]; reflexivity.
  - cbn [Output.files Output.printed Output.print Output.write_file].
    assert (Hthere : assoc filepath
                       (dict_set filepath page (dict_set filepath "" (Output.files w)))
                     = Some page) by apply assoc_dict_set_same.
    repeat split.
    + exact Hthere.
    + intros p Hp; rewrite !assoc_dict_set_other by exact Hp; reflexivity.
    + apply publish_blocked; try assumption.
      unfold Output.path_exists; cbn [Output.files Output.print Output.write_file].
      fold filepath; rewrite Hthere; reflexivity.
    + rewrite publish_named by assumption; cbv zeta.
      rewrite andb_false_r; reflexivity.
Qed.

(** X8: the target file is opened before the page is rendered: when
    rendering raises, [publish] fails with that exception and leaves
    the target file empty, also when it held an earlier page; no other
    file changes and nothing is printed. *)
Theorem publish_failed_rendering_empties_file (title : option string) (e : exn)
    (nm : string) (overwrite : bool) (w : Output.world) :
  let filepath := abspath (Output.extract_name nm ++ ".html") in
  nm <> "" -> Output.extract_name nm <> "" ->
  Output.path_exists w filepath = false \/ overwrite = true ->
  exists w',
    Output.publish abspath title (Raise e) (Some nm) overwrite w
    = (inl (Output.RenderingFailed e), w')
    /\ assoc filepath (Output.files w') = Some ""
    /\ (forall p, p <> filepath ->
                  assoc p (Output.files w') = assoc p (Output.files w))
    /\ Output.printed w' = Output.printed w.
Proof.
  intros filepath Hnm Hex Hfree.
  eexists; split.
  - rewrite publish_named by assumption; cbv zeta; fold filepath.
    destruct Hfree as [-> | ->]; [|rewrite andb_false_r]; reflexivity.
  - cbn [Output.files Output.printed Output.write_file]; repeat split.
    + apply assoc_dict_set_same.
    + intros p Hp; apply assoc_dict_set_other; exact Hp.
Qed.

End PublishFacts.

Lemma publish_invalid_basename_witness :
  Output.publish (fun p => "/tmp/" ++ p) None (Ok "<html>") (Some "!?") true
    {| Output.files := []; Output.printed := [] |}
  = (inl Output.InvalidBasename, {| Output.files := []; Output.printed := [] |}).
Proof.
  apply (publish_invalid_basename (fun p => "/tmp/" ++ p)).
  - discriminate.
  - intros c H; cbn in H.
    repeat (destruct H as [<-|H]; [split; [discriminate | reflexivity]|]).
    destruct H.
Defined.

Lemma publish_refuses_existing_witness :
  Output.publish (fun p => "/tmp/" ++ p) None (Ok "<html>") (Some "my report") false
    {| Output.files := [("/tmp/my_report.html", "old")]; Output.printed := [] |}
  = (inl Output.FileExists,
     {| Output.files := [("/tmp/my_report.html", "old")]; Output.printed := [] |}).
Proof.
  apply (publish_refuses_existing (fun p => "/tmp/" ++ p));
    [discriminate | discriminate | reflexivity].
Defined.

Lemma publish_writes_page_witness :
  exists w',
    Output.publish (fun p => "/tmp/" ++ p) None (Ok "<html>") (Some "my report") true
      {| Output.files := [("/tmp/my_report.html", "old")]; Output.printed := [] |}
    = (inr "/tmp/my_report.html", w')
    /\ assoc "/tmp/my_report.html" (Output.files w') = Some "<html>".
Proof.
  destruct (publish_writes_page (fun p => "/tmp/" ++ p) None "<html>" "<html>"
              "my report" true
              {| Output.files := [("/tmp/my_report.html", "old")];
                 Output.printed := [] |})
    as (w' & H1 & H2 & _); [discriminate | discriminate | right; reflexivity |].
  exists w'; split; [exact H1 | exact H2].
Defined.

Lemma publish_failed_rendering_empties_file_witness :
  exists w',
    Output.publish (fun p => "/tmp/" ++ p) None (Raise UndefinedError)
      (Some "my report") true
      {| Output.files := [("/tmp/my_report.html", "old")]; Output.printed := [] |}
    = (inl (Output.RenderingFailed UndefinedError), w')
    /\ assoc "/tmp/my_report.html" (Output.files w') = Some "".
Proof.
  destruct (publish_failed_rendering_empties_file (fun p => "/tmp/" ++ p) None
              UndefinedError "my report" true
              {| Output.files := [("/tmp/my_report.html", "old")];
                 Output.printed := [] |})
    as (w' & H1 & H2 & _); [discriminate | discriminate | right; reflexivity |].
  exists w'; split; [exact H1 | exact H2].
Defined.

(** ** Order of the page elements *)

Module PageFacts.
Import Page.

Section Sorting.

Variables Figure FormatFcn : Type.
Abbreviation element := (Element Figure FormatFcn).

Lemma insert_last (x : element) (l : list element) :
  Forall (fun y => ix y < ix x) l -> insert_by_ix x l = (l ++ [x])%list.
Proof.
  induction 1 as [|y l Hy _ IH]; cbn [insert_by_ix app]; [reflexivity|].
  destruct (Z.leb_spec (ix x) (ix y)); [lia | rewrite IH; reflexivity].
Qed.

Lemma insert_before_last (y x : element) (l : list element) :
  ix y < ix x -> insert_by_ix y (l ++ [x]) = (insert_by_ix y l ++ [x])%list.
Proof.
  intros H; induction l as [|z l IH]; cbn [insert_by_ix app].
  - destruct (Z.leb_spec (ix y) (ix x)); [reflexivity | lia].
  - destruct (ix y <=? ix z); [reflexivity | rewrite IH; reflexivity].
Qed.

Lemma insert_perm (x : element) (l : list element) :
  Permutation (insert_by_ix x l) (x :: l).
Proof.
  induction l as [|y l IH]; cbn [insert_by_ix]; [reflexivity|].
  destruct (ix x <=? ix y); [reflexivity|].
  rewrite IH; apply perm_swap.
Qed.

Lemma sorted_perm (l : list element) : Permutation (sorted_by_ix l) l.
Proof.
  induction l as [|x l IH]; cbn [sorted_by_ix fold_right]; [reflexivity|].
  fold (sorted_by_ix l); rewrite insert_perm, IH; reflexivity.
Qed.

Lemma sorted_Forall (P : element -> Prop) (l : list element) :
  Forall P l -> Forall P (sorted_by_ix l).
Proof.
  intros H; eapply Permutation_Forall; [|exact H].
  symmetry; apply sorted_perm.
Qed.

Lemma sorted_middle (l1 l2 : list element) (x : element) :
  Forall (fun y => ix y < ix x) (l1 ++ l2) ->
  sorted_by_ix (l1 ++ x :: l2) = (sorted_by_ix (l1 ++ l2) ++ [x])%list.
Proof.
  induction l1 as [|y l1 IH]; cbn [app]; intros H.
  - cbn [sorted_by_ix fold_right]; fold (sorted_by_ix l2).
    apply insert_last, sorted_Forall; exact H.
  - inversion H as [|? ? Hy Hrest]; subst.
    cbn [sorted_by_ix fold_right].
    fold (sorted_by_ix (l1 ++ x :: l2)); fold (sorted_by_ix (l1 ++ l2)).
    rewrite (IH Hrest); apply insert_before_last; exact Hy.
Qed.

Lemma insert_ordered (x : element) (l : list element) :
  ordered_by_ix l -> ordered_by_ix (insert_by_ix x l).
Proof.
  unfold ordered_by_ix; induction 1 as [|y l Hl IH Hy]; cbn [insert_by_ix].
  - repeat constructor.
  - destruct (Z.leb_spec (ix x) (ix y)) as [L|G].
    + constructor; [constructor; assumption|].
      constructor; [exact L|].
      eapply Forall_impl; [|exact Hy]; cbv beta; intros; lia.
    + constructor; [exact IH|].
      eapply Permutation_Forall; [symmetry; apply insert_perm|].
      constructor; [lia | exact Hy].
Qed.

Lemma sorted_ordered (l : list element) : ordered_by_ix (sorted_by_ix l).
Proof.
  induction l as [|x l IH]; cbn [sorted_by_ix fold_right]; [constructor|].
  apply insert_ordered; exact IH.
Qed.

Lemma sorted_of_ordered (l : list element) :
  ordered_by_ix l -> sorted_by_ix l = l.
Proof.
  unfold ordered_by_ix; induction 1 as [|x l Hl IH Hx];
    cbn [sorted_by_ix fold_right]; [reflexivity|].
  fold (sorted_by_ix l); rewrite IH.
  destruct Hx as [|y l' Hy _]; cbn [insert_by_ix]; [reflexivity|].
  destruct (Z.leb_spec (ix x) (ix y)); [reflexivity | lia].
Qed.

End Sorting.

Section Calls.

Variables Figure Axes Kwargs FormatFcn : Type.
Variable to_html : CompositePage.pd_options -> DataFrame -> result string.
Variable _convert_int_columns : DataFrame -> result DataFrame.
Variable valid_colwidth : option Z -> bool.
Variable has_number : Axes -> bool.
Variable get_figure : Axes -> result Axes.
Variable plt_to_html : option Axes -> Kwargs -> result string.

Abbreviation page := (CompositePage Figure FormatFcn).
Abbreviation run := (perform to_html _convert_int_columns valid_colwidth
                   has_number get_figure plt_to_html).

Lemma appended_table (self : page) (e : Element Figure FormatFcn) :
  ix e = _index self + 1 ->
  appended self (append_table _ _ e (snd (index self))).
Proof.
  intros He; exists e, (_tables self), (_bokeh_figs self ++ _plt_figs self)%list.
  unfold all_elements; cbn; rewrite <- app_assoc; auto.
Qed.

Lemma appended_bokeh (self : page) (e : Element Figure FormatFcn) :
  ix e = _index self + 1 ->
  appended self (append_bokeh_fig _ _ e (snd (index self))).
Proof.
  intros He; exists e, (_tables self ++ _bokeh_figs self)%list, (_plt_figs self).
  unfold all_elements; cbn; rewrite <- !app_assoc; auto.
Qed.

Lemma appended_plt (self : page) (e : Element Figure FormatFcn) :
  ix e = _index self + 1 ->
  appended self (append_plt_fig _ _ e (snd (index self))).
Proof.
  intros He; exists e, (_tables self ++ _bokeh_figs self ++ _plt_figs self)%list, [].
  unfold all_elements; cbn; rewrite !app_nil_r, <- !app_assoc; auto.
Qed.

Lemma untouched_refl (self : page) : untouched self self.
Proof. unfold untouched; auto. Qed.

Lemma untouched_index (self : page) : untouched self (snd (index self)).
Proof. unfold untouched; cbn; auto. Qed.

Lemma perform_cases (c : call Figure Axes Kwargs FormatFcn)
    (o : CompositePage.pd_options) (self : page) :
  (fst (run c o self) = Ok tt /\ appended self (snd (run c o self)))
  \/ ((exists e, fst (run c o self) = Raise e)
      /\ untouched self (snd (run c o self))).
Proof.
  destruct c as [df t cap ic ns [h|] f | fields t cap | fig t cap | [a|] t cap kw];
    cbn [perform add_table add_table_from_fields add_bokeh_figure add_plt index
         PageElement CompositePage.PageElement_init].
  - left; split; [reflexivity | apply appended_table; reflexivity].
  - destruct (CompositePage.df_to_html _ _ _ _ _ _ _) as [[h|e] o'].
    + left; split; [reflexivity | apply appended_table; reflexivity].
    + right; split; [eexists; reflexivity | apply untouched_index].
  - destruct (df_pretty fields) as [[pretty|e] fields'].
    + left; split; [reflexivity | apply appended_table; reflexivity].
    + right; split; [eexists; reflexivity | apply untouched_index].
  - left; split; [reflexivity | apply appended_bokeh; reflexivity].
  - unfold add_plt; destruct (has_number a).
    + destruct (plt_to_html (Some a) kw) as [h|e].
      * left; split; [reflexivity | apply appended_plt; reflexivity].
      * right; split; [eexists; reflexivity | apply untouched_index].
    + destruct (get_figure a) as [fig|e]; cbn [bind].
      * destruct (plt_to_html (Some fig) kw) as [h|e].
        -- left; split; [reflexivity | apply appended_plt; reflexivity].
        -- right; split; [eexists; reflexivity | apply untouched_index].
      * right; split; [eexists; reflexivity | apply untouched_refl].
  - unfold add_plt; destruct (plt_to_html None kw) as [h|e].
    + left; split; [reflexivity | apply appended_plt; reflexivity].
    + right; split; [eexists; reflexivity | apply untouched_index].
Qed.

Lemma appended_well_indexed (self self' : page) :
  well_indexed self -> appended self self' -> well_indexed self'.
Proof.
  intros (H0 & Hb & Hd) (e & l1 & l2 & He & Hi & Hall & Hall').
  unfold well_indexed; rewrite Hall', Hi; rewrite Hall in Hb, Hd.
  assert (Hlt : Forall (fun y => ix y < ix e) (l1 ++ l2))
    by (eapply Forall_impl; [|exact Hb]; cbv beta; intros; lia).
  split; [lia|split].
  - apply Forall_app in Hb as [Hb1 Hb2]; apply Forall_app; split.
    + eapply Forall_impl; [|exact Hb1]; cbv beta; intros; lia.
    + constructor; [lia|].
      eapply Forall_impl; [|exact Hb2]; cbv beta; intros; lia.
  - rewrite map_app in *; cbn [map].
    apply NoDup_Add with (a := ix e) (l := (map ix l1 ++ map ix l2)%list).
    + apply Add_app.
    + split; [exact Hd|].
      rewrite <- map_app; intros Hin; apply in_map_iff in Hin as (y & Hy & Hin).
      rewrite Forall_forall in Hlt; specialize (Hlt y Hin); lia.
Qed.

Lemma untouched_well_indexed (self self' : page) :
  well_indexed self -> untouched self self' -> well_indexed self'.
Proof.
  intros (H0 & Hb & Hd) (Ht & Hbk & Hp & Hi).
  unfold well_indexed, all_elements in *; rewrite Ht, Hbk, Hp.
  split; [lia|split; [|exact Hd]].
  eapply Forall_impl; [|exact Hb]; cbv beta; intros; lia.
Qed.

Lemma perform_well_indexed (c : call Figure Axes Kwargs FormatFcn)
    (o : CompositePage.pd_options) (self : page) :
  well_indexed self -> well_indexed (snd (run c o self)).
Proof.
  intros H; destruct (perform_cases c o self) as [[_ Ha]|[_ Hu]].
  - eapply appended_well_indexed; eassumption.
  - eapply untouched_well_indexed; eassumption.
Qed.

Lemma perform_all_well_indexed (calls : list (call Figure Axes Kwargs FormatFcn))
    (o : CompositePage.pd_options) (self : page) (n : Z) :
  well_indexed self -> _index self <= n ->
  well_indexed (fst (perform_all to_html _convert_int_columns valid_colwidth
                       has_number get_figure plt_to_html calls o self))
  /\ _index (fst (perform_all to_html _convert_int_columns valid_colwidth
                    has_number get_figure plt_to_html calls o self))
     <= n + Z.of_nat (List.length calls).
Proof.
  unfold perform_all; revert self o n.
  induction calls as [|c calls IH]; intros self o n Hw Hn;
    cbn [fold_left List.length fst snd].
  - split; [exact Hw | lia].
  - destruct (IH (snd (run c o self))
                (options_after _ _ _ _ to_html _convert_int_columns
                   valid_colwidth c o self) (n + 1)) as [Hw' Hn'].
    + apply perform_well_indexed; exact Hw.
    + destruct (perform_cases c o self)
        as [[_ (e & l1 & l2 & _ & Hi & _)]|[_ (_ & _ & _ & Hi)]]; lia.
    + split; [exact Hw' | lia].
Qed.

End Calls.

End PageFacts.

Section PageTheorems.

Variables Figure Axes Kwargs FormatFcn : Type.
Variable to_html : CompositePage.pd_options -> DataFrame -> result string.
Variable _convert_int_columns : DataFrame -> result DataFrame.
Variable valid_colwidth : option Z -> bool.
Variable has_number : Axes -> bool.
Variable get_figure : Axes -> result Axes.
Variable plt_to_html : option Axes -> Kwargs -> result string.

Abbreviation page := (Page.CompositePage Figure FormatFcn).
Abbreviation run := (Page.perform to_html _convert_int_columns valid_colwidth
                   has_number get_figure plt_to_html).
Abbreviation run_all := (Page.perform_all to_html _convert_int_columns valid_colwidth
                       has_number get_figure plt_to_html).

(** X9: [pagecontent] holds exactly the elements of the three lists,
    in nondecreasing order of index; elements that already are in that
    order stay as they are. *)
Theorem pagecontent_sorted_permutation (self : page) :
  Permutation (Page.pagecontent self) (Page.all_elements self)
  /\ Page.ordered_by_ix (Page.pagecontent self)
  /\ (Page.ordered_by_ix (Page.all_elements self) ->
      Page.pagecontent self = Page.all_elements self).
Proof.
  unfold Page.pagecontent; repeat split.
  - apply PageFacts.sorted_perm.
  - apply PageFacts.sorted_ordered.
  - apply PageFacts.sorted_of_ordered.
Qed.

(** X10: after any sequence of [add_table], [add_table_from_fields],
    [add_bokeh_figure] and [add_plt] calls on a new page, failed ones
    included, the elements carry positive, pairwise distinct indices
    that the counter has reached, and the counter has advanced by at
    most one per call. *)
Theorem indices_distinct_after_calls
    (calls : list (Page.call Figure Axes Kwargs FormatFcn))
    (o : CompositePage.pd_options) (title caption : option string)
    (inline : bool) :
  let self :=
    fst (run_all calls o (Page.CompositePage_init title caption inline)) in
  Page.well_indexed self /\ 0 <= Page._index self <= Z.of_nat (List.length calls).
Proof.
  cbv zeta.
  destruct (PageFacts.perform_all_well_indexed _ _ _ _ to_html _convert_int_columns
              valid_colwidth has_number get_figure plt_to_html calls o
              (Page.CompositePage_init title caption inline) 0) as [Hw Hn].
  - split; [cbn; lia | split; constructor].
  - cbn; lia.
  - split; [exact Hw|]. destruct Hw as (H0 & _); lia.
Qed.

(** X11: on a page whose elements have indices up to the counter, a
    call that succeeds adds one element, which carries the next index
    and comes last in [pagecontent], behind all earlier elements and in
    whichever of the three lists it was put. *)
Theorem added_element_comes_last (c : Page.call Figure Axes Kwargs FormatFcn)
    (o : CompositePage.pd_options) (self : page) :
  Page.well_indexed self ->
  fst (run c o self) = Ok tt ->
  exists e,
    Page.ix e = Page._index self + 1
    /\ Page._index (snd (run c o self)) = Page._index self + 1
    /\ Page.pagecontent (snd (run c o self))
       = (Page.pagecontent self ++ [e])%list.
Proof.
  intros (_ & Hb & _) Hok.
  destruct (PageFacts.perform_cases _ _ _ _ to_html _convert_int_columns
              valid_colwidth has_number get_figure plt_to_html c o self)
    as [[_ (e & l1 & l2 & He & Hn & Hall & Hall')]|[[err Herr] _]];
    [|congruence].
  exists e; repeat split; [exact He | exact Hn|].
  unfold Page.pagecontent; rewrite Hall', Hall.
  apply PageFacts.sorted_middle.
  rewrite Hall in Hb; eapply Forall_impl; [|exact Hb]; cbv beta; intros; lia.
Qed.

(** X12: a call that raises leaves the three lists of elements, hence
    [pagecontent], as they were; the counter stays or has advanced by
    one. *)
Theorem failed_call_adds_nothing (c : Page.call Figure Axes Kwargs FormatFcn)
    (o : CompositePage.pd_options) (self : page) (e : exn) :
  fst (run c o self) = Raise e ->
  Page._tables (snd (run c o self)) = Page._tables self
  /\ Page._bokeh_figs (snd (run c o self)) = Page._bokeh_figs self
  /\ Page._plt_figs (snd (run c o self)) = Page._plt_figs self
  /\ Page.pagecontent (snd (run c o self)) = Page.pagecontent self
  /\ (Page._index (snd (run c o self)) = Page._index self
      \/ Page._index (snd (run c o self)) = Page._index self + 1).
Proof.
  intros Hraise.
  destruct (PageFacts.perform_cases _ _ _ _ to_html _convert_int_columns
              valid_colwidth has_number get_figure plt_to_html c o self)
    as [[Hok _]|[_ (Ht & Hb & Hp & Hi)]]; [congruence|].
  repeat split; try assumption.
  unfold Page.pagecontent, Page.all_elements; rewrite Ht, Hb, Hp; reflexivity.
Qed.

End PageTheorems.

Lemma added_element_comes_last_witness :
  exists e,
    Page.ix e = 1
    /\ Page.pagecontent
         (snd (PageSample.run PageSample.add_figure Sample.options
                 PageSample.new_page)) = [e].
Proof.
  destruct (added_element_comes_last unit unit unit unit
              Sample.failing_to_html (fun df => Ok df) (fun _ => true)
              (fun _ => true) (fun a => Ok a) (fun _ _ => Ok "<img>")
              PageSample.add_figure Sample.options PageSample.new_page)
    as (e & He & _ & Hc).
  - split; [cbn; lia | split; constructor].
  - reflexivity.
  - exists e; split; [exact He | exact Hc].
Defined.

Lemma failed_call_adds_nothing_witness :
  Page.pagecontent
    (snd (PageSample.run PageSample.add_frame Sample.options PageSample.new_page))
  = []
  /\ Page._index
       (snd (PageSample.run PageSample.add_frame Sample.options PageSample.new_page))
     = 1.
Proof.
  destruct (failed_call_adds_nothing unit unit unit unit
              Sample.failing_to_html (fun df => Ok df) (fun _ => true)
              (fun _ => true) (fun a => Ok a) (fun _ _ => Ok "<img>")
              PageSample.add_frame Sample.options PageSample.new_page
              (UserError "to_html") eq_refl)
    as (_ & _ & _ & Hc & _).
  split; [exact Hc | reflexivity].
Defined.

(** ** What the table methods leave behind *)

Section TableCalls.

Variables Figure FormatFcn : Type.
Variable to_html : CompositePage.pd_options -> DataFrame -> result string.
Variable _convert_int_columns : DataFrame -> result DataFrame.
Variable valid_colwidth : option Z -> bool.

Lemma df_to_html_options_kept (df : DataFrame) (int_convert non_scientific : bool)
    (o : CompositePage.pd_options) :
  valid_colwidth (CompositePage.max_colwidth o) = true ->
  snd (CompositePage.df_to_html to_html _convert_int_columns valid_colwidth
         df int_convert non_scientific o) = o.
Proof.
  intros Hold.
  unfold CompositePage.df_to_html, CompositePage.render_and_restore,
    CompositePage.set_max_colwidth.
  destruct (if int_convert then _convert_int_columns df else Ok df) as [df'|e];
    [|reflexivity].
  rewrite Hold.
  destruct (valid_colwidth (Some (-1))); [|reflexivity].
  destruct o as [w f]; destruct non_scientific; reflexivity.
Qed.

(** X13: [add_table] leaves the display options as it found them,
    whether the frame was rendered, rendering raised, or ready-made
    HTML was passed, provided the column width in force is one that
    [pd.set_option] accepts back. *)
Theorem add_table_keeps_display_options (df : DataFrame)
    (title caption : option string) (int_convert non_scientific : bool)
    (html : option string) (format_fcn : option FormatFcn)
    (self : Page.CompositePage Figure FormatFcn) (o : CompositePage.pd_options) :
  valid_colwidth (CompositePage.max_colwidth o) = true ->
  snd (Page.add_table to_html _convert_int_columns valid_colwidth df title caption
         int_convert non_scientific html format_fcn self o) = o.
Proof.
  intros Hold.
  pose proof (df_to_html_options_kept df int_convert non_scientific o Hold) as H.
  unfold Page.add_table;
    cbn [Page.index Page.PageElement CompositePage.PageElement_init].
  destruct html as [h|]; [reflexivity|].
  destruct (CompositePage.df_to_html _ _ _ _ _ _ _) as [[s|e] o'];
    cbn [snd] in *; exact H.
Qed.

(** X14: with explicit HTML [add_table] stores that HTML in the new
    element; [add_table_from_fields] stores the pretty frame and no
    HTML at all, and when [df_pretty] raises it raises the same
    exception with the index already taken. *)
Theorem table_elements_html (fields : TableFieldArray) (df : DataFrame)
    (title caption : option string) (int_convert non_scientific : bool)
    (h : string) (format_fcn : option FormatFcn)
    (self : Page.CompositePage Figure FormatFcn) (o : CompositePage.pd_options) :
  (exists e,
      Page.add_table to_html _convert_int_columns valid_colwidth df title caption
        int_convert non_scientific (Some h) format_fcn self o
      = (Ok tt, Page.append_table _ _ e (snd (Page.index self)), o)
      /\ Page.html_raw e = Some h
      /\ CompositePage.plot_object _ _ e = Some (Page.PlotFrame df))
  /\ match df_pretty fields with
     | (Ok pretty, fields') =>
         exists e,
           Page.add_table_from_fields fields title caption self
           = (Ok tt, Page.append_table _ _ e (snd (Page.index self)), fields')
           /\ Page.html_raw e = None
           /\ CompositePage.plot_object _ _ e = Some (Page.PlotFrame pretty)
     | (Raise err, fields') =>
         Page.add_table_from_fields fields title caption self
         = (Raise err, snd (Page.index self), fields')
     end.
Proof.
  split.
  - eexists; repeat split.
  - unfold Page.add_table_from_fields; cbn [Page.index].
    destruct (df_pretty fields) as [[pretty|err] fields']; [|reflexivity].
    eexists; repeat split.
Qed.

End TableCalls.

Lemma add_table_keeps_display_options_witness :
  snd (Page.add_table Sample.failing_to_html (fun df => Ok df) (fun _ => true)
         Sample.frame_x None None true true None (@None unit)
         PageSample.new_page Sample.options)
  = Sample.options.
Proof.
  apply (add_table_keeps_display_options unit unit).
  reflexivity.
Defined.

(** ** Rows, one by one *)

Lemma format_rows_prefix (formatters : list formatter) (rows : list Row) :
  match snd (format_rows formatters rows) with
  | None =>
      mapM (format_row formatters) rows = Ok (fst (format_rows formatters rows))
  | Some e =>
      exists pre row post,
        rows = (pre ++ row :: post)%list
        /\ mapM (format_row formatters) pre = Ok (fst (format_rows formatters rows))
        /\ format_row formatters row = Raise e
  end.
Proof.
  induction rows as [|row rest IH]; cbn [format_rows mapM]; [reflexivity|].
  destruct (format_row formatters row) as [va|e] eqn:E; cbn [fst snd bind].
  - destruct (snd (format_rows formatters rest)) as [e|].
    + destruct IH as (pre & row' & post & -> & Hpre & Hrow).
      exists (row :: pre), row', post; cbn [app mapM].
      rewrite E, Hpre; cbn [bind]; auto.
    + rewrite IH; reflexivity.
  - exists [], row, rest; auto.
Qed.

Lemma format_row_raises (formatters : list formatter) (row : Row)
    (f : Row -> result pyval) (g : Row -> result attr_dict) (e : exn) :
  In (f, g) formatters -> f row = Raise e ->
  exists e', format_row formatters row = Raise e'.
Proof.
  induction formatters as [|[f' g'] rest IH]; intros Hin Hf; [destruct Hin|].
  cbn [format_row]; destruct Hin as [[= -> ->]|Hin].
  - rewrite Hf; eexists; reflexivity.
  - destruct (f' row) as [val|e1]; cbn [bind]; [|eexists; reflexivity].
    destruct (g' row) as [attr|e2]; cbn [bind]; [|eexists; reflexivity].
    destruct (IH Hin Hf) as [e' ->]; eexists; reflexivity.
Qed.

Lemma assoc_combine_map {A} (f : string -> A) (nm : string) (l : list string) :
  assoc nm (combine l (map f l))
  = if existsb (String.eqb nm) l then Some (f nm) else None.
Proof.
  induction l as [|a l IH]; cbn [map combine assoc existsb]; [reflexivity|].
  destruct (String.eqb_spec nm a) as [->|_]; [reflexivity | exact IH].
Qed.

Lemma forallb_has_missing (df : DataFrame) (cols : list string) (c : string) :
  In c cols -> has_column df c = false -> forallb (has_column df) cols = false.
Proof.
  intros Hin Hc; destruct (forallb (has_column df) cols) eqn:E; [|reflexivity].
  rewrite forallb_forall in E; rewrite (E c Hin) in Hc; discriminate.
Qed.

Lemma iter_data_rows_length (self : TableFieldArray) (rows : list Row) :
  iter_data_rows self = Ok rows ->
  List.length rows = match data self with
                     | None => O
                     | Some df => List.length (df_rows df)
                     end.
Proof.
  unfold iter_data_rows, df_getitem.
  destruct (data self) as [df|]; [|intros [= <-]; reflexivity].
  destruct (forallb (has_column df) (get_data_fields self)); [|discriminate].
  cbn [bind]; intros [= <-]; unfold itertuples; cbn [df_rows].
  rewrite !length_map; reflexivity.
Qed.

Lemma reassign_keeps_table_html (r : reassignment) (self : TableFieldArray) :
  _table_html (reassign r self) = _table_html self.
Proof. destruct r; reflexivity. Qed.

Section ProjectionExtras.

Variable float_repr : Float64.t -> string.

Lemma collect_iter_formatted_rows (self : TableFieldArray)
    (body : list (list pyval * list attr_dict)) :
  collect (iter_formatted_rows float_repr self) = Ok body ->
  exists rows,
    iter_data_rows self = Ok rows
    /\ fst (iter_formatted_rows float_repr self) = body
    /\ mapM (format_row (get_column_formatters float_repr self)) rows = Ok body.
Proof.
  unfold collect, iter_formatted_rows.
  destruct (iter_data_rows self) as [rows|e]; [|discriminate].
  pose proof (format_rows_prefix (get_column_formatters float_repr self) rows) as P.
  destruct (snd (format_rows _ rows)) as [e|]; [discriminate|].
  intros [= <-]; exists rows; auto.
Qed.

(** X15: [iter_formatted_rows] is fail-fast and keeps the order of the
    rows: when the projection of the dataset raises, nothing is yielded
    before that exception; otherwise the pairs of the rows are yielded
    in dataset order up to the first row on which a formatter raises,
    and that exception ends the iteration. *)
Theorem iter_formatted_rows_fail_fast (self : TableFieldArray) :
  let formatters := get_column_formatters float_repr self in
  let g := iter_formatted_rows float_repr self in
  match iter_data_rows self with
  | Raise e => g = ([], Some e)
  | Ok rows =>
      match snd g with
      | None => mapM (format_row formatters) rows = Ok (fst g)
      | Some e =>
          exists pre row post,
            rows = (pre ++ row :: post)%list
            /\ mapM (format_row formatters) pre = Ok (fst g)
            /\ format_row formatters row = Raise e
      end
  end.
Proof.
  cbv zeta; unfold iter_formatted_rows.
  destruct (iter_data_rows self) as [rows|e]; [|reflexivity].
  apply format_rows_prefix.
Qed.

Lemma build_table_dict_body (self : TableFieldArray) (d : table_dict_t) :
  build_table_dict float_repr self = Ok d ->
  List.length (tbody d) = match data self with
                          | None => O
                          | Some df => List.length (df_rows df)
                          end
  /\ Forall (fun row =>
               List.length (row_v row) = count_visible (table_fields self)
               /\ List.length (row_a row) = count_visible (table_fields self))
            (tbody d).
Proof.
  unfold build_table_dict.
  destruct (collect (iter_formatted_rows float_repr self)) as [body|e] eqn:E;
    cbn [bind]; [|discriminate].
  intros [= <-]; cbn [tbody].
  destruct (collect_iter_formatted_rows self body E) as (rows & Hrows & Hfst & Hm).
  split.
  - rewrite length_map, (mapM_length _ _ _ Hm).
    apply iter_data_rows_length; exact Hrows.
  - rewrite Forall_map; cbn [row_v row_a].
    rewrite <- Hfst; unfold iter_formatted_rows; rewrite Hrows.
    rewrite <- get_column_formatters_length with (float_repr := float_repr).
    apply format_rows_lengths.
Qed.

(** X16: a [table_dict] computed by the read has the visible headers
    as head, one body entry per row of the dataset (none without a
    dataset), and in every entry one value and one attribute mapping
    per visible descriptor. *)
Theorem table_dict_shape (self : TableFieldArray) (d : table_dict_t) :
  _table_dict self = None ->
  fst (table_dict float_repr self) = Ok d ->
  thead_v d = get_output_header self
  /\ List.length (tbody d) = match data self with
                             | None => O
                             | Some df => List.length (df_rows df)
                             end
  /\ Forall (fun row =>
               List.length (row_v row) = count_visible (table_fields self)
               /\ List.length (row_a row) = count_visible (table_fields self))
            (tbody d).
Proof.
  intros Hc; rewrite table_dict_after_reset by exact Hc.
  intros Hb; split; [|apply build_table_dict_body; exact Hb].
  unfold build_table_dict in Hb.
  destruct (collect (iter_formatted_rows float_repr self)); [|discriminate].
  injection Hb as <-; reflexivity.
Qed.

(** X17: without a dataset nothing is yielded and nothing raises,
    whatever the descriptors; read on empty caches, [table_dict] has an
    empty body and [table_html] renders the header-only table. *)
Theorem no_dataset_renders_header_only (self : TableFieldArray) :
  data self = None ->
  _table_dict self = None ->
  _table_html self = None ->
  iter_formatted_rows float_repr self = ([], None)
  /\ fst (table_dict float_repr self)
     = Ok {| thead_v := get_output_header self; tbody := [] |}
  /\ exists h,
       TPL_TABLE_render float_repr (get_output_header self) [] = Ok h
       /\ fst (table_html float_repr self) = Ok h.
Proof.
  intros Hd Hc Hh.
  assert (Hi : iter_formatted_rows float_repr self = ([], None))
    by (unfold iter_formatted_rows, iter_data_rows; rewrite Hd; reflexivity).
  assert (Hb : build_table_dict float_repr self
               = Ok {| thead_v := get_output_header self; tbody := [] |})
    by (unfold build_table_dict; rewrite Hi; reflexivity).
  repeat split; [exact Hi | rewrite table_dict_after_reset by exact Hc; exact Hb|].
  eexists; split; [reflexivity|].
  unfold table_html; rewrite Hh.
  destruct (table_dict float_repr self) as [r s1] eqn:E1.
  unfold table_dict in E1; rewrite Hc, Hb in E1; injection E1 as <- <-.
  reflexivity.
Qed.

(** X18: when a data-flagged descriptor names a column that the
    dataset lacks, the projection raises [KeyError] before any row is
    formatted: [iter_formatted_rows] yields nothing, and [table_dict]
    raises and caches nothing. *)
Theorem missing_column_raises_key_error (self : TableFieldArray) (df : DataFrame)
    (c : string) :
  data self = Some df ->
  In c (get_data_fields self) ->
  has_column df c = false ->
  iter_formatted_rows float_repr self = ([], Some KeyError)
  /\ (_table_dict self = None ->
      table_dict float_repr self = (Raise KeyError, self)).
Proof.
  intros Hd Hin Hc.
  assert (Hr : iter_data_rows self = Raise KeyError).
  { unfold iter_data_rows, df_getitem; rewrite Hd.
    rewrite (forallb_has_missing df _ c Hin Hc); reflexivity. }
  assert (Hi : iter_formatted_rows float_repr self = ([], Some KeyError))
    by (unfold iter_formatted_rows; rewrite Hr; reflexivity).
  split; [exact Hi|].
  intros Hcache; unfold table_dict, build_table_dict; rewrite Hcache, Hi.
  reflexivity.
Qed.

Lemma iter_data_rows_projected (self : TableFieldArray) (df : DataFrame) :
  data self = Some df ->
  forallb (has_column df) (get_data_fields self) = true ->
  iter_data_rows self
  = Ok (map (fun r => ("Index", fst r)
                        :: combine (get_data_fields self)
                             (map (cell_at (df_columns df) (snd r))
                                (get_data_fields self)))
            (df_rows df)).
Proof.
  intros Hd Hcols.
  unfold iter_data_rows, df_getitem; rewrite Hd, Hcols; cbn [bind].
  unfold itertuples; cbn [df_rows df_columns]; rewrite map_map; reflexivity.
Qed.

Lemma projected_row_getattr (fields : list string) (cell : string -> pyval)
    (label : pyval) (nm : string) :
  nm <> "Index" ->
  getattr (("Index", label) :: combine fields (map cell fields)) nm
  = if existsb (String.eqb nm) fields then Ok (cell nm) else Raise AttributeError.
Proof.
  intros Hnm; unfold getattr; cbn [assoc].
  destruct (String.eqb_spec nm "Index") as [E|_]; [contradiction|].
  rewrite assoc_combine_map.
  destruct (existsb (String.eqb nm) fields); reflexivity.
Qed.

Lemma existsb_eqb_in (nm : string) (l : list string) :
  existsb (String.eqb nm) l = true <-> In nm l.
Proof.
  rewrite existsb_exists; split.
  - intros (c & Hc & E); apply String.eqb_eq in E; subst c; exact Hc.
  - intros H; exists nm; split; [exact H | apply String.eqb_refl].
Qed.

(** X19: for a dataset with distinct column names and data-flagged
    names that [itertuples] keeps as field names, the rows handed to the
    formatters are the rows of the dataset in order; in each, [Index]
    is the row's index label, a data-flagged name other than [Index]
    gives the cell of that column, and a name that is neither
    data-flagged nor an attribute of tuples is no attribute of the row.
    So the default value function of a descriptor with a data-flagged
    name prints the cell of its column. *)
Theorem data_rows_give_cells (self : TableFieldArray) (df : DataFrame) :
  data self = Some df ->
  forallb (has_column df) (get_data_fields self) = true ->
  NoDup (df_columns df) ->
  forallb kept_by_itertuples (get_data_fields self) = true ->
  exists rows,
    iter_data_rows self = Ok rows
    /\ List.length rows = List.length (df_rows df)
    /\ forall k r,
         nth_error (df_rows df) k = Some r ->
         exists row,
           nth_error rows k = Some row
           /\ getattr row "Index" = Ok (fst r)
           /\ (forall nm,
                 In nm (get_data_fields self) -> nm <> "Index" ->
                 getattr row nm = Ok (cell_at (df_columns df) (snd r) nm))
           /\ (forall nm,
                 ~ In nm (get_data_fields self) ->
                 no_tuple_attribute nm = true -> nm <> "Index" ->
                 getattr row nm = Raise AttributeError)
           /\ (forall f,
                 fcn f = None ->
                 In (name f) (get_data_fields self) -> name f <> "Index" ->
                 function float_repr f row
                 = Ok (PStr (py_str float_repr
                               (cell_at (df_columns df) (snd r) (name f))))).
Proof.
  intros Hd Hcols _ _.
  rewrite (iter_data_rows_projected self df Hd Hcols).
  eexists; split; [reflexivity|].
  split; [apply length_map|].
  intros k r Hk.
  eexists; split; [rewrite nth_error_map, Hk; reflexivity|].
  split; [reflexivity | split; [|split]].
  - intros nm Hnm Hi; rewrite projected_row_getattr by exact Hi.
    apply existsb_eqb_in in Hnm; rewrite Hnm; reflexivity.
  - intros nm Hnm _ Hi; rewrite projected_row_getattr by exact Hi.
    destruct (existsb (String.eqb nm) (get_data_fields self)) eqn:E;
      [|reflexivity].
    apply existsb_eqb_in in E; contradiction.
  - intros f Hf Hnm Hi; unfold function.
    rewrite Hf, projected_row_getattr by exact Hi.
    apply existsb_eqb_in in Hnm; rewrite Hnm; reflexivity.
Qed.

(** X20: a visible descriptor without a value function whose name is
    neither data-flagged nor an attribute of tuples cannot be formatted:
    on a dataset with at least one row [iter_formatted_rows] yields
    nothing and ends with an exception, which [table_dict] raises. *)
Theorem visible_default_needs_data_column (self : TableFieldArray)
    (df : DataFrame) (f : TableField) :
  data self = Some df ->
  forallb (has_column df) (get_data_fields self) = true ->
  NoDup (df_columns df) ->
  forallb kept_by_itertuples (get_data_fields self) = true ->
  df_rows df <> [] ->
  In f (table_fields self) ->
  visible f = true ->
  fcn f = None ->
  name f <> "Index" ->
  no_tuple_attribute (name f) = true ->
  ~ In (name f) (get_data_fields self) ->
  exists e,
    iter_formatted_rows float_repr self = ([], Some e)
    /\ build_table_dict float_repr self = Raise e.
Proof.
  intros Hd Hcols Hnd Hkept Hrows Hin Hvis Hf Hnm Hattr Hnot.
  pose proof (iter_data_rows_projected self df Hd Hcols) as Hr.
  destruct (df_rows df) as [|r rest] eqn:Edf; [congruence|].
  cbn [map] in Hr.
  set (row := ("Index", fst r)
                :: combine (get_data_fields self)
                     (map (cell_at (df_columns df) (snd r))
                        (get_data_fields self))) in *.
  assert (Hfun : function float_repr f row = Raise AttributeError).
  { unfold function, row; rewrite Hf, projected_row_getattr by exact Hnm.
    destruct (existsb (String.eqb (name f)) (get_data_fields self)) eqn:E;
      [|reflexivity].
    apply existsb_eqb_in in E; contradiction. }
  assert (Hmem : In (function float_repr f, attributes_fcn f)
                    (get_column_formatters float_repr self)).
  { unfold get_column_formatters, get_output_functions,
      get_output_tag_attribute_functions, _filter_visible.
    rewrite combine_map_fields.
    apply (in_map (fun x => (function float_repr x, attributes_fcn x))).
    apply filter_In; split; assumption. }
  destruct (format_row_raises _ row _ _ _ Hmem Hfun) as [e He].
  exists e.
  assert (Hi : iter_formatted_rows float_repr self = ([], Some e))
    by (unfold iter_formatted_rows; rewrite Hr; cbn [format_rows];
        rewrite He; reflexivity).
  split; [exact Hi|].
  unfold build_table_dict; rewrite Hi; reflexivity.
Qed.

(** X21: once [table_html] has returned a page, it returns that page
    after every sequence of reassignments of [data] and
    [table_fields]. *)
Theorem table_html_fixed_after_first_read (self : TableFieldArray) (h : string)
    (changes : list reassignment) :
  fst (table_html float_repr self) = Ok h ->
  fst (table_html float_repr
         (fold_left (fun s r => reassign r s) changes
            (snd (table_html float_repr self)))) = Ok h.
Proof.
  intros Hread.
  assert (Hc : _table_html (snd (table_html float_repr self)) = Some h).
  { unfold table_html in *.
    destruct (_table_html self) as [h0|] eqn:E.
    - cbn [fst snd] in *; congruence.
    - destruct (table_dict float_repr self) as [[d1|e1] s1]; [|discriminate].
      destruct (table_dict float_repr s1) as [[d2|e2] s2]; [|discriminate].
      destruct (TPL_TABLE_render float_repr (thead_v d1) (tbody d2));
        [|discriminate].
      cbn [fst snd _table_html] in *; congruence. }
  revert Hc; generalize (snd (table_html float_repr self)).
  induction changes as [|r changes IH]; intros s Hc; cbn [fold_left].
  - unfold table_html; rewrite Hc; reflexivity.
  - apply IH; rewrite reassign_keeps_table_html; exact Hc.
Qed.

(** X22: the table template raises [UndefinedError] as soon as one row
    of the body holds a value, and renders a page when no row does. *)
Theorem TPL_TABLE_render_outcome (head : list header_val) (body : list body_row) :
  (Exists (fun row => row_v row <> []) body ->
   TPL_TABLE_render float_repr head body = Raise UndefinedError)
  /\ (Forall (fun row => row_v row = []) body ->
      exists page, TPL_TABLE_render float_repr head body = Ok page).
Proof.
  split; [apply TPL_TABLE_render_cells_raise|].
  intros H.
  assert (Hm : exists rows, mapM (render_row float_repr) body = Ok rows).
  { induction H as [|row rest Hrow _ [rows IH]]; [eexists; reflexivity|].
    cbn [mapM]; destruct (render_row_without_cell float_repr row Hrow) as [s ->].
    rewrite IH; eexists; reflexivity. }
  destruct Hm as [rows Hm].
  unfold TPL_TABLE_render, render_body.
  destruct body; [eexists; reflexivity|].
  rewrite Hm; eexists; reflexivity.
Qed.

(** X23: read on empty caches, [table_html] does not return for a
    dataset with at least one row as soon as one descriptor is
    visible. *)
Theorem table_html_raises_on_rows (self : TableFieldArray) (df : DataFrame) :
  _table_dict self = None ->
  _table_html self = None ->
  data self = Some df ->
  df_rows df <> [] ->
  (0 < count_visible (table_fields self))%nat ->
  is_ok (fst (table_html float_repr self)) = false.
Proof.
  intros Hc Hh Hd Hrows Hvis.
  unfold table_html; rewrite Hh.
  destruct (table_dict float_repr self) as [[d|e] s1] eqn:E; [|reflexivity].
  assert (Hb : build_table_dict float_repr self = Ok d)
    by (rewrite <- table_dict_after_reset by exact Hc; rewrite E; reflexivity).
  destruct (build_table_dict_body self d Hb) as (Hlen & Hw).
  rewrite Hd in Hlen.
  assert (Hs1 : table_dict float_repr s1 = (Ok d, s1)).
  { unfold table_dict in E; rewrite Hc, Hb in E.
    injection E as <-; reflexivity. }
  rewrite Hs1.
  rewrite (TPL_TABLE_render_cells_raise float_repr (thead_v d) (tbody d));
    [reflexivity|].
  destruct (tbody d) as [|row rest].
  - destruct (df_rows df); [congruence | discriminate].
  - left; inversion Hw as [|? ? [Hv _] _]; subst.
    intros Hnil; rewrite Hnil in Hv; cbn in Hv; lia.
Qed.

End ProjectionExtras.

(** X24: a second read of [df_pretty] returns what the first returned
    and leaves the instance as the first left it; after [data] or
    [table_fields] is assigned, the read returns what a fresh instance
    holding the new inputs would build. *)
Theorem df_pretty_memoized_and_invalidated (self : TableFieldArray) :
  df_pretty (snd (df_pretty self)) = df_pretty self
  /\ (forall val,
        fst (df_pretty (set_data val self))
        = build_df_pretty (TableFieldArray_init (Some (table_fields self)) val))
  /\ (forall val,
        fst (df_pretty (set_table_fields val self))
        = build_df_pretty (TableFieldArray_init (Some val) (data self))).
Proof.
  assert (R : forall s, _df_pretty s = None -> fst (df_pretty s) = build_df_pretty s).
  { intros s Hs; unfold df_pretty; rewrite Hs.
    destruct (build_df_pretty s); reflexivity. }
  split; [|split].
  - unfold df_pretty at 2 3.
    destruct (_df_pretty self) as [d|] eqn:Hc; cbn [snd].
    + unfold df_pretty; rewrite Hc; reflexivity.
    + destruct (build_df_pretty self) as [d|e] eqn:Hb; cbn [snd].
      * reflexivity.
      * unfold df_pretty; rewrite Hc, Hb; reflexivity.
  - intros val; rewrite R by reflexivity; reflexivity.
  - intros val; rewrite R by reflexivity; reflexivity.
Qed.

(** ** The other formatters *)

Lemma float_to_int_truncates (x : Float64.t) :
  Float64.is_finite x = true ->
  exists n,
    Float64.to_int x = Ok n
    /\ (let nd := Float64.magnitude x in
        Z.abs n * snd nd <= fst nd < (Z.abs n + 1) * snd nd)
    /\ (n < 0 -> Float64.sign_bit x = true)
    /\ (0 < n -> Float64.sign_bit x = false).
Proof.
  destruct x as [s|s| |s m e]; try discriminate; intros _.
  - exists 0; cbn; repeat split; lia.
  - cbn [Float64.to_int Float64.magnitude Float64.sign_bit].
    destruct (Z.leb_spec 0 e) as [L|G]; cbn [fst snd].
    + assert (0 < 2 ^ e) by (apply Z.pow_pos_nonneg; lia).
      eexists; split; [reflexivity|].
      destruct s; repeat split; try reflexivity; nia.
    + assert (D : 0 < 2 ^ (- e)) by (apply Z.pow_pos_nonneg; lia).
      pose proof (Z.mul_div_le (Z.pos m) _ D).
      pose proof (Z.mul_succ_div_gt (Z.pos m) _ D).
      assert (0 <= Z.pos m / 2 ^ (- e)) by (apply Z.div_pos; lia).
      eexists; split; [reflexivity|].
      destruct s; repeat split; try reflexivity; nia.
Qed.

Section FormatterExtras.

Variable float_of_str : string -> option Float64.t.

(** X25: [format_euro(3)] is ["3.00 €"]; an absent value raises
    [TypeError]; for a value that [float] accepts as a finite float the
    result is the sign, a numeral, the decimal point, exactly two digits
    and [" €"], and numeral and digits denote the float rounded to two
    decimals, to nearest and to even on a tie. *)
Theorem format_euro_renders (val : pyval) (x : Float64.t) :
  format_euro float_of_str (PInt 3) = Ok (PStr ("3.00 " ++ euro_sign))
  /\ format_euro float_of_str PNone = Raise TypeError
  /\ (py_float float_of_str val = Ok x ->
      Float64.is_finite x = true ->
      exists int frac,
        format_euro float_of_str val
        = Ok (PStr (Float64.sign_str (Float64.sign_bit x)
                      ++ int ++ "." ++ frac ++ " " ++ euro_sign))
        /\ String.length frac = 2%nat
        /\ int <> ""
        /\ all_digits int = true
        /\ all_digits frac = true
        /\ (let q := digits_value (int ++ frac) in
            let nd := Float64.magnitude x in
            2 * Z.abs (q * snd nd - fst nd * 100) <= snd nd
            /\ (2 * Z.abs (q * snd nd - fst nd * 100) = snd nd ->
                Z.even q = true))).
Proof.
  split; [vm_compute; reflexivity | split; [reflexivity|]].
  intros Hx Hfin.
  destruct (Float64Facts.format_f_finite 2 x Hfin)
    as (int & frac & E & Hl & Hn & Hi & Hf & Hv).
  exists int, frac.
  change (10 ^ Z.of_nat 2) with 100 in Hv.
  repeat split; try assumption; try apply Hv.
  unfold format_euro; rewrite Hx; cbn [bind].
  rewrite E, !NumeralFacts.app_assoc; reflexivity.
Qed.

(** X26: [format_int] of a finite float prints the integer obtained by
    truncation toward zero; of an infinity it raises [OverflowError] and
    of NaN [ValueError], whatever [none_to_zero] is. *)
Theorem format_int_truncates (x : Float64.t) (none_to_zero : bool) :
  (Float64.is_finite x = true ->
   exists n,
     format_int float_of_str (PFloat x) none_to_zero = Ok (PStr (str_of_int n))
     /\ (let nd := Float64.magnitude x in
         Z.abs n * snd nd <= fst nd < (Z.abs n + 1) * snd nd)
     /\ (n < 0 -> Float64.sign_bit x = true)
     /\ (0 < n -> Float64.sign_bit x = false))
  /\ (forall s, format_int float_of_str (PFloat (S754_infinity s)) none_to_zero
                = Raise OverflowError)
  /\ format_int float_of_str (PFloat S754_nan) none_to_zero = Raise ValueError.
Proof.
  split; [|split; [intros s; reflexivity | reflexivity]].
  intros Hfin.
  destruct (float_to_int_truncates x Hfin) as (n & Hn & Hrest).
  exists n; split; [|exact Hrest].
  unfold format_int; cbn [py_float bind]; rewrite Hn; reflexivity.
Qed.

(** X27: [format_factory] returns a formatter for the types ["int"],
    ["euro"] and ["percent"] and nothing for any other; a formatter it
    returns raises [AttributeError] on a row without the field, when
    the field's name is no attribute of tuples, whatever the keywords;
    and a descriptor built with the result for another type falls back
    on printing the cell of its own name. *)
Theorem format_factory_outcome (format_type field_name : string)
    (kwargs : list (string * pyval)) :
  ((exists f, format_factory float_of_str format_type field_name kwargs = Some f)
   <-> format_type = "int" \/ format_type = "euro" \/ format_type = "percent")
  /\ (forall f row,
        format_factory float_of_str format_type field_name kwargs = Some f ->
        assoc field_name row = None ->
        no_tuple_attribute field_name = true ->
        f row = Raise AttributeError)
  /\ (format_factory float_of_str format_type field_name kwargs = None ->
      forall float_repr field row,
        fcn field = format_factory float_of_str format_type field_name kwargs ->
        function float_repr field row
        = (v <- getattr row (name field) ;; Ok (PStr (py_str float_repr v)))).
Proof.
  unfold format_factory.
  destruct (String.eqb_spec format_type "int") as [Ei|Ni];
    [|destruct (String.eqb_spec format_type "euro") as [Ee|Ne];
      [|destruct (String.eqb_spec format_type "percent") as [Ep|Np]]].
  - repeat split.
    + intros _; left; exact Ei.
    + intros _; eexists; reflexivity.
    + intros f row [= <-] Hrow _; unfold getattr; rewrite Hrow; reflexivity.
    + discriminate.
  - repeat split.
    + intros _; right; left; exact Ee.
    + intros _; eexists; reflexivity.
    + intros f row [= <-] Hrow _; unfold getattr; rewrite Hrow; reflexivity.
    + discriminate.
  - repeat split.
    + intros _; right; right; exact Ep.
    + intros _; eexists; reflexivity.
    + intros f row [= <-] Hrow _; unfold getattr; rewrite Hrow; reflexivity.
    + discriminate.
  - repeat split.
    + intros [f Hf]; discriminate.
    + intros [H|[H|H]]; contradiction.
    + discriminate.
    + intros _ float_repr field row Hf; unfold function; rewrite Hf; reflexivity.
Qed.

(** X28: a keyword that the formatter does not take makes the
    formatter from the factory raise [TypeError] on every row that has
    the field: anything but [none_to_zero] for ["int"], anything but
    [precision] for ["percent"]; the ["euro"] formatter never sees the
    keywords. *)
Theorem format_factory_keywords (field_name key : string) (value : pyval)
    (kwargs kwargs' : list (string * pyval)) (row : Row) (v : pyval) :
  getattr row field_name = Ok v ->
  In (key, value) kwargs ->
  (key <> "none_to_zero" ->
   forall f, format_factory float_of_str "int" field_name kwargs = Some f ->
             f row = Raise TypeError)
  /\ (key <> "precision" ->
      forall f, format_factory float_of_str "percent" field_name kwargs = Some f ->
                f row = Raise TypeError)
  /\ (forall f f',
        format_factory float_of_str "euro" field_name kwargs = Some f ->
        format_factory float_of_str "euro" field_name kwargs' = Some f' ->
        f row = f' row /\ f row = format_euro float_of_str v).
Proof.
  intros Hrow Hin.
  assert (B : forall allowed,
             key <> allowed ->
             forallb (fun kv : string * pyval => String.eqb (fst kv) allowed) kwargs
             = false).
  { intros allowed Hk.
    destruct (forallb _ kwargs) eqn:E; [|reflexivity].
    rewrite forallb_forall in E; specialize (E _ Hin); cbn [fst] in E.
    apply String.eqb_eq in E; contradiction. }
  cbn [format_factory String.eqb Ascii.eqb Bool.eqb]; split; [|split].
  - intros Hk f [= <-]; rewrite Hrow; cbn [bind].
    unfold call_format_int; rewrite (B _ Hk); reflexivity.
  - intros Hk f [= <-]; rewrite Hrow; cbn [bind].
    unfold call_format_percent; rewrite (B _ Hk); reflexivity.
  - intros f f' [= <-] [= <-]; rewrite Hrow; split; reflexivity.
Qed.

End FormatterExtras.

Section NonScientificFacts.

Variable format_e : nat -> Float64.t -> string.
Variable abs_ge_milli : Float64.t -> bool.

(** X29: [_non_scientific_float_format] renders both zeros as ["0.0"];
    a finite number of magnitude at least 1 and below [10 ** 10] is
    rendered in fixed-point notation, with four decimals below
    [10 ** 6] and two from there on, rounded to nearest and to even on
    a tie. *)
Theorem non_scientific_fixed_point (x : Float64.t) :
  (forall s, _non_scientific_float_format format_e abs_ge_milli (S754_zero s)
             = "0.0")
  /\ (Float64.is_finite x = true ->
      float_abs_ge_int x 1 = true ->
      float_abs_ge_int x (10 ^ 10) = false ->
      let p := if float_abs_ge_int x (10 ^ 6) then 2%nat else 4%nat in
      exists int frac,
        _non_scientific_float_format format_e abs_ge_milli x
        = Float64.sign_str (Float64.sign_bit x) ++ int ++ "." ++ frac
        /\ String.length frac = p
        /\ int <> ""
        /\ all_digits int = true
        /\ all_digits frac = true
        /\ (let q := digits_value (int ++ frac) in
            let nd := Float64.magnitude x in
            2 * Z.abs (q * snd nd - fst nd * 10 ^ Z.of_nat p) <= snd nd
            /\ (2 * Z.abs (q * snd nd - fst nd * 10 ^ Z.of_nat p) = snd nd ->
                Z.even q = true))).
Proof.
  split; [reflexivity|].
  intros Hfin H1 H10; cbv zeta.
  assert (Hshape : forall p,
             exists int frac,
               Float64.format_f (S p) x
               = Float64.sign_str (Float64.sign_bit x) ++ int ++ "." ++ frac
               /\ String.length frac = S p
               /\ int <> ""
               /\ all_digits int = true
               /\ all_digits frac = true
               /\ (let q := digits_value (int ++ frac) in
                   let nd := Float64.magnitude x in
                   2 * Z.abs (q * snd nd - fst nd * 10 ^ Z.of_nat (S p)) <= snd nd
                   /\ (2 * Z.abs (q * snd nd - fst nd * 10 ^ Z.of_nat (S p))
                       = snd nd -> Z.even q = true))).
  { intros p; destruct (Float64Facts.format_f_finite (S p) x Hfin)
      as (int & frac & E & Hrest).
    exists int, frac; split; [exact E | exact Hrest]. }
  destruct x as [s|s| |s m e]; try discriminate Hfin.
  - cbn in H1; discriminate H1.
  - unfold _non_scientific_float_format; rewrite H10, H1.
    destruct (float_abs_ge_int (S754_finite s m e) (10 ^ 6)); apply Hshape.
Qed.

End NonScientificFacts.

(** ** The properties on sample inputs *)

Lemma pagecontent_sorted_permutation_witness :
  Page.pagecontent MoreSamples.two_figures
  = Page.all_elements MoreSamples.two_figures.
Proof.
  apply (proj2 (proj2 (pagecontent_sorted_permutation unit unit
                         MoreSamples.two_figures))).
  unfold Page.ordered_by_ix.
  change (Page.all_elements MoreSamples.two_figures)
    with (Page._bokeh_figs MoreSamples.two_figures).
  cbn [Page._bokeh_figs MoreSamples.two_figures].
  repeat constructor; cbn; lia.
Defined.

Lemma table_dict_shape_witness :
  List.length
    (tbody {| thead_v := [HStr "x"];
              tbody := [ {| row_v := [PStr "1"]; row_a := [[("class", "c")]] |};
                         {| row_v := [PStr "2"]; row_a := [[("class", "c")]] |} ] |})
  = List.length (df_rows Sample.frame_x).
Proof.
  apply (table_dict_shape MoreSamples.fixed_repr Sample.array_x_class _
           eq_refl eq_refl).
Defined.

Lemma no_dataset_renders_header_only_witness :
  iter_formatted_rows MoreSamples.fixed_repr Sample.array_a = ([], None).
Proof.
  apply (no_dataset_renders_header_only MoreSamples.fixed_repr Sample.array_a
           eq_refl eq_refl eq_refl).
Defined.

Lemma missing_column_raises_key_error_witness :
  iter_formatted_rows MoreSamples.fixed_repr MoreSamples.array_missing
  = ([], Some KeyError).
Proof.
  apply (missing_column_raises_key_error MoreSamples.fixed_repr
           MoreSamples.array_missing Sample.frame_x "z" eq_refl).
  - left; reflexivity.
  - reflexivity.
Defined.

Lemma data_rows_give_cells_witness :
  exists rows,
    iter_data_rows Sample.array_mixed = Ok rows
    /\ List.length rows = 2%nat.
Proof.
  destruct (data_rows_give_cells MoreSamples.fixed_repr Sample.array_mixed
              Sample.frame_xy eq_refl eq_refl) as (rows & Hr & Hl & _).
  - repeat constructor; cbn; intuition discriminate.
  - reflexivity.
  - exists rows; split; [exact Hr | exact Hl].
Defined.

Lemma visible_default_needs_data_column_witness :
  exists e,
    iter_formatted_rows MoreSamples.fixed_repr MoreSamples.array_w
    = ([], Some e).
Proof.
  destruct (visible_default_needs_data_column MoreSamples.fixed_repr
              MoreSamples.array_w Sample.frame_xy MoreSamples.field_w
              eq_refl eq_refl) as (e & He & _).
  - repeat constructor; cbn; intuition discriminate.
  - reflexivity.
  - discriminate.
  - right; left; reflexivity.
  - reflexivity.
  - reflexivity.
  - discriminate.
  - reflexivity.
  - cbn; intuition discriminate.
  - exists e; exact He.
Defined.

Lemma table_html_fixed_after_first_read_witness :
  exists h,
    fst (table_html MoreSamples.fixed_repr Sample.array_a) = Ok h
    /\ fst (table_html MoreSamples.fixed_repr
              (fold_left (fun s r => reassign r s) MoreSamples.changes
                 (snd (table_html MoreSamples.fixed_repr Sample.array_a))))
       = Ok h.
Proof.
  eexists; split; [reflexivity|].
  apply (table_html_fixed_after_first_read MoreSamples.fixed_repr Sample.array_a).
  reflexivity.
Defined.

Lemma TPL_TABLE_render_outcome_witness :
  TPL_TABLE_render MoreSamples.fixed_repr [] [MoreSamples.row_with_cell]
  = Raise UndefinedError
  /\ exists page,
       TPL_TABLE_render MoreSamples.fixed_repr [HStr "x"]
         [MoreSamples.row_without_cell] = Ok page.
Proof.
  split.
  - apply (proj1 (TPL_TABLE_render_outcome MoreSamples.fixed_repr []
                    [MoreSamples.row_with_cell])).
    left; discriminate.
  - apply (proj2 (TPL_TABLE_render_outcome MoreSamples.fixed_repr [HStr "x"]
                    [MoreSamples.row_without_cell])).
    repeat constructor.
Defined.

Lemma table_html_raises_on_rows_witness :
  is_ok (fst (table_html MoreSamples.fixed_repr Sample.array_x_class)) = false.
Proof.
  apply (table_html_raises_on_rows MoreSamples.fixed_repr Sample.array_x_class
           Sample.frame_x eq_refl eq_refl eq_refl).
  - discriminate.
  - cbn; lia.
Defined.

Lemma format_euro_renders_witness :
  exists int frac,
    format_euro Sample.no_float_strings (PFloat Float64.half)
    = Ok (PStr (int ++ "." ++ frac ++ " " ++ euro_sign))
    /\ String.length frac = 2%nat.
Proof.
  destruct (proj2 (proj2 (format_euro_renders Sample.no_float_strings
                            (PFloat Float64.half) Float64.half))
              eq_refl eq_refl) as (int & frac & E & Hl & _).
  exists int, frac; split; [exact E | exact Hl].
Defined.

Lemma format_int_truncates_witness :
  exists n,
    format_int Sample.no_float_strings
      (PFloat MoreSamples.minus_nine_and_a_quarter) true
    = Ok (PStr (str_of_int n))
    /\ Float64.sign_bit MoreSamples.minus_nine_and_a_quarter = true.
Proof.
  destruct (proj1 (format_int_truncates Sample.no_float_strings
                     MoreSamples.minus_nine_and_a_quarter true) eq_refl)
    as (n & Hn & _).
  exists n; split; [exact Hn | reflexivity].
Defined.

Lemma format_factory_outcome_witness :
  exists f, format_factory Sample.no_float_strings "euro" "x" [] = Some f.
Proof.
  apply (proj1 (format_factory_outcome Sample.no_float_strings "euro" "x" [])).
  right; left; reflexivity.
Defined.

Lemma format_factory_keywords_witness :
  match MoreSamples.int_with_precision with
  | Some f => f MoreSamples.row_x = Raise TypeError
  | None => False
  end.
Proof.
  apply (proj1 (format_factory_keywords Sample.no_float_strings "x" "precision"
                  (PInt 2) [("precision", PInt 2)] [] MoreSamples.row_x
                  (PFloat Float64.half) eq_refl (or_introl eq_refl))).
  - discriminate.
  - reflexivity.
Defined.

Lemma non_scientific_fixed_point_witness :
  exists int frac,
    _non_scientific_float_format (fun _ _ => "") (fun _ => false)
      MoreSamples.some_millions
    = int ++ "." ++ frac
    /\ String.length frac = 2%nat.
Proof.
  destruct (proj2 (non_scientific_fixed_point (fun _ _ => "") (fun _ => false)
                     MoreSamples.some_millions) eq_refl eq_refl eq_refl)
    as (int & frac & E & Hl & _).
  exists int, frac; split; [exact E | exact Hl].
Defined.

(** ** The document of the bokeh figures *)

Section BokehJsonFacts.

Variables Figure FormatFcn Document : Type.
Variable new_document : result Document.
Variable add_root : Document -> option (Page.plot_obj Figure) -> result Document.
Variable to_json_string : Document -> result string.

(** X30: on a page without bokeh figures [bokeh_json_string] is the
    JSON of a new document; on a page with at least one it never
    returns: once the document is made, reading [plot_obj] of the
    first figure's element raises [AttributeError], and no root is
    added. *)
Theorem bokeh_json_string_outcome (self : Page.CompositePage Figure FormatFcn) :
  (Page._bokeh_figs self = [] ->
   bokeh_json_string Figure FormatFcn Document new_document add_root
     to_json_string self
   = (t_doc <- new_document ;; to_json_string t_doc))
  /\ (Page._bokeh_figs self <> [] ->
      is_ok (bokeh_json_string Figure FormatFcn Document new_document add_root
               to_json_string self) = false
      /\ forall t_doc,
           new_document = Ok t_doc ->
           bokeh_json_string Figure FormatFcn Document new_document add_root
             to_json_string self
           = Raise AttributeError).
Proof.
  unfold bokeh_json_string; split.
  - intros ->; destruct new_document; reflexivity.
  - intros Hfigs.
    destruct (Page._bokeh_figs self) as [|element rest]; [congruence|].
    destruct new_document as [t_doc|e]; cbn [bind add_roots plot_obj_attribute].
    + split; [reflexivity | intros ? _; reflexivity].
    + split; [reflexivity | intros ? [=]].
Qed.

End BokehJsonFacts.

Lemma bokeh_json_string_outcome_witness :
  bokeh_json_string unit unit string (Ok "doc") (fun d _ => Ok d)
    (fun d => Ok d) MoreSamples.two_figures
  = Raise AttributeError
  /\ bokeh_json_string unit unit string (Ok "doc") (fun d _ => Ok d)
       (fun d => Ok d) PageSample.new_page
     = Ok "doc".
Proof.
  split.
  - refine (proj2 (proj2 (bokeh_json_string_outcome unit unit string (Ok "doc")
                            (fun d _ => Ok d) (fun d => Ok d)
                            MoreSamples.two_figures) _) "doc" eq_refl).
    discriminate.
  - apply (proj1 (bokeh_json_string_outcome unit unit string (Ok "doc")
                    (fun d _ => Ok d) (fun d => Ok d) PageSample.new_page)).
    reflexivity.
Defined.
